(** * Learning nodes of the multi-target perceptron regression tree

    A shallow embedding of
    [src/skmultiflow/trees/nodes/_isouptr_nodes.py]: the four learning-node
    classes [ActiveLearningNodePerceptronMultiTarget],
    [InactiveLearningNodePerceptronMultiTarget],
    [ActiveLearningNodeAdaptiveMultiTarget] and
    [InactiveLearningNodeAdaptiveMultiTarget].

    Numbers.  The source computes on numpy [float64] values (the instance
    weight and the statistics included: they reach the node as numpy
    scalars and arrays).  They are modelled by exact rationals extended
    with the IEEE special values (infinities and NaN): every finite
    operation is exact, so rounding is not modelled, and neither is the
    sign of zero (a zero divisor counts as [+0]).  What is kept is the part
    of IEEE arithmetic the node code relies on: division by zero does not
    raise, it yields an infinity or NaN, and NaN is absorbing.

    Arrays.  A numpy array that is mutated in place lives in a store
    ([heap]) and is named by a location, so that two nodes holding the same
    array see each other's updates.

    Exceptions.  A computation returns [Ok] or [Raise] with the Python
    exception class. *)

From Stdlib Require Import QArith Qround Qabs Qpower ZArith List Lia Lqa.
From stdpp Require Import base option list gmap strings.

Local Open Scope Q_scope.

(** ** float64 values *)

Inductive float64 : Type :=
| Fin (q : Q)            (* a finite number *)
| Inf (negative : bool)  (* +inf (false) and -inf (true) *)
| NaN.

Definition f0 : float64 := Fin 0.
Definition f1 : float64 := Fin 1.

Definition Qis_zero (q : Q) : bool := Qeq_bool q 0.
Definition Qis_neg (q : Q) : bool := negb (Qle_bool 0 q).

Definition fneg (x : float64) : float64 :=
  match x with
  | Fin a => Fin (Qred (- a))
  | Inf s => Inf (negb s)
  | NaN => NaN
  end.

Definition fabs (x : float64) : float64 :=
  match x with
  | Fin a => Fin (Qred (Qabs a))
  | Inf _ => Inf false
  | NaN => NaN
  end.

Definition fadd (x y : float64) : float64 :=
  match x, y with
  | NaN, _ | _, NaN => NaN
  | Fin a, Fin b => Fin (Qred (a + b))
  | Inf s, Fin _ | Fin _, Inf s => Inf s
  | Inf s, Inf t => if Bool.eqb s t then Inf s else NaN
  end.

Definition fsub (x y : float64) : float64 := fadd x (fneg y).

Definition fmul (x y : float64) : float64 :=
  match x, y with
  | NaN, _ | _, NaN => NaN
  | Fin a, Fin b => Fin (Qred (a * b))
  | Inf s, Fin a | Fin a, Inf s =>
      if Qis_zero a then NaN else Inf (xorb s (Qis_neg a))
  | Inf s, Inf t => Inf (xorb s t)
  end.

Definition fdiv (x y : float64) : float64 :=
  match x, y with
  | NaN, _ | _, NaN => NaN
  | Fin a, Fin b =>
      if Qis_zero b
      then (if Qis_zero a then NaN else Inf (Qis_neg a))
      else Fin (Qred (a / b))
  | Fin _, Inf _ => Fin 0
  | Inf s, Fin b => Inf (xorb s (Qis_neg b))
  | Inf _, Inf _ => NaN
  end.

(** Equality of float64 values as numbers: finite values are compared as
    rationals, NaN is identified with itself (this is the equality of the
    model, not the IEEE comparison). *)
Definition feq (x y : float64) : Prop :=
  match x, y with
  | Fin a, Fin b => a == b
  | Inf s, Inf t => s = t
  | NaN, NaN => True
  | _, _ => False
  end.

Definition is_finite (x : float64) : bool :=
  match x with Fin _ => true | _ => false end.


(** ** Python exceptions *)

Inductive exn : Type :=
| AttributeError | KeyError | TypeError | ValueError | OverflowError
| InvalidReference.
(* [InvalidReference] is not a Python exception: it is the answer of the
   model when a location names no array of the store, which no store built
   by the allocations below exhibits. *)

Inductive result (A : Type) : Type :=
| Ok (a : A)
| Raise (e : exn).
Arguments Ok {A} a.
Arguments Raise {A} e.

Definition rbind {A B} (r : result A) (k : A -> result B) : result B :=
  match r with Ok a => k a | Raise e => Raise e end.

Definition rmap {A B} (f : A -> B) (r : result A) : result B :=
  match r with Ok a => Ok (f a) | Raise e => Raise e end.

Notation "'let?' x ':=' r 'in' k" := (rbind r (fun x => k))
  (at level 10, x pattern, r at level 100, k at level 200).

(** ** numpy: vectors and matrices *)

Abbreviation vec := (list float64).
Abbreviation matrix := (list (list float64)).

(** [np.sum] of a one-dimensional array. *)
Definition np_sum (v : vec) : float64 := fold_left fadd v f0.

(** [np.abs], [scalar * array], [array / scalar]. *)
Definition np_abs (v : vec) : vec := map fabs v.
Definition np_scale (c : float64) (v : vec) : vec := map (fmul c) v.
Definition np_div_scalar (v : vec) (c : float64) : vec := map (fun x => fdiv x c) v.

(** A binary elementwise operation on one-dimensional arrays, with numpy's
    broadcasting: equal lengths, or one of the operands of length 1. *)
Definition np_zip (op : float64 -> float64 -> float64) (u v : vec) : result vec :=
  if Nat.eqb (length u) (length v) then Ok (zip_with op u v)
  else match u, v with
       | [a], _ => Ok (map (op a) v)
       | _, [b] => Ok (map (fun x => op x b) u)
       | _, _ => Raise ValueError
       end.

(** [np.matmul(W, x)] for a two-dimensional [W] and a one-dimensional [x]:
    the number of columns of [W] must be the length of [x]. *)
Definition dot (r x : vec) : float64 := np_sum (zip_with fmul r x).

Definition matmul (W : matrix) (x : vec) : result vec :=
  if forallb (fun r => Nat.eqb (length r) (length x)) W
  then Ok (map (fun r => dot r x) W)
  else Raise ValueError.

(** [np.matmul(d[:, None], x[None, :])]: the outer product. *)
Definition outer (d x : vec) : matrix := map (fun di => map (fmul di) x) d.

(** [W += c * M] in place: [M] is broadcast to the shape of [W]. *)
Definition broadcast_to {A} (n : nat) (l : list A) : result (list A) :=
  if Nat.eqb (length l) n then Ok l
  else match l with
       | [a] => Ok (repeat a n)
       | _ => Raise ValueError
       end.

Fixpoint zip_rows (W M : matrix) : result matrix :=
  match W, M with
  | r :: W', m :: M' =>
      let? m' := broadcast_to (length r) m in
      let? rest := zip_rows W' M' in
      Ok (zip_with fadd r m' :: rest)
  | _, _ => Ok []
  end.

Definition np_iadd (W M : matrix) : result matrix :=
  let? M' := broadcast_to (length W) M in zip_rows W M'.

(** ** The store of arrays *)

Definition loc := positive.
Abbreviation heap := (gmap loc matrix).

Definition alloc (h : heap) (W : matrix) : loc * heap :=
  let l := fresh (dom h) in (l, <[l := W]> h).

Definition read (h : heap) (l : loc) : result matrix :=
  match h !! l with Some W => Ok W | None => Raise InvalidReference end.

(** [copy.deepcopy] of a value that is [None] or an array. *)
Definition deepcopy (v : option loc) (h : heap) : result (option loc * heap) :=
  match v with
  | None => Ok (None, h)
  | Some l =>
      let? W := read h l in
      let '(l', h') := alloc h W in Ok (Some l', h')
  end.

(** ** External collaborators *)

(** Modelled from the spec: the attribute observers
    ([NumericAttributeRegressionObserver] and
    [NominalAttributeRegressionObserver]), which are defined outside this
    file of the repository.  The nodes only create them and call
    [update(x, y, weight)]; an observer is represented by its class and by
    the calls of [update] it has received, oldest first. *)
Inductive observer_class : Type :=
| NumericAttributeRegressionObserver
| NominalAttributeRegressionObserver.

Record observer : Type := mk_observer {
  obs_class : observer_class;
  obs_updates : list (float64 * vec * float64)
}.

Definition new_observer (c : observer_class) : observer := mk_observer c [].

Definition observer_update (o : observer) (x : float64) (y : vec) (weight : float64)
  : observer :=
  mk_observer (obs_class o) (obs_updates o ++ [(x, y, weight)]).

(** Modelled from the spec: the generator of a node, a
    [numpy.random.RandomState] as [check_random_state] returns it.  It is
    represented by the sequence of values its draws from [uniform(-1, 1)]
    produce, and by how many of them were consumed. *)
Record RandomState : Type := mk_random_state {
  rs_samples : nat -> float64;
  rs_consumed : nat
}.

(** [random_state.uniform(-1.0, 1.0, (rows, cols))]: the entries are drawn
    one after the other, row by row. *)
Definition uniform (rs : RandomState) (rows cols : nat) : matrix * RandomState :=
  (map (fun i => map (fun j => rs_samples rs (rs_consumed rs + i * cols + j)%nat)
                     (seq 0 cols))
       (seq 0 rows),
   mk_random_state (rs_samples rs) (rs_consumed rs + rows * cols)%nat).

(** Modelled from the spec: the regressor [rht] (section 6), as far as the
    nodes read it: the three parameters of the learning rate, the nominal
    attributes and the two normalization functions. *)
Record HoeffdingTreeRegressor : Type := mk_rht {
  learning_ratio_const : bool;
  learning_ratio_perceptron : float64;
  learning_ratio_decay : float64;
  nominal_attributes : option (list nat);
  normalize_sample : vec -> vec;
  normalize_target_value : vec -> vec
}.

(** ** Nodes *)

Inductive node_class : Type :=
| ActivePerceptronMultiTarget
| InactivePerceptronMultiTarget
| ActiveAdaptiveMultiTarget
| InactiveAdaptiveMultiTarget.

Definition is_active (c : node_class) : bool :=
  match c with
  | ActivePerceptronMultiTarget | ActiveAdaptiveMultiTarget => true
  | _ => false
  end.

Definition is_adaptive (c : node_class) : bool :=
  match c with
  | ActiveAdaptiveMultiTarget | InactiveAdaptiveMultiTarget => true
  | _ => false
  end.

(** The dictionary [_stats], with the keys the nodes use: [0] (a float, the
    weight seen), [1] and [2] (arrays, the sums of the targets and of their
    squares).  A key is absent ([None]) until it is first written. *)
Record stats : Type := mk_stats {
  stats_0 : option float64;
  stats_1 : option vec;
  stats_2 : option vec
}.

Definition empty_stats : stats := mk_stats None None None.

Definition stats_is_empty (s : stats) : bool :=
  match s with
  | mk_stats None None None => true
  | _ => false
  end.

(** A faded error: the Python float [0.0] of the constructor, then an
    array. *)
Inductive faded_error : Type :=
| PyFloat (x : float64)
| NdArray (v : vec).

(** The instance attributes of a node.  [fMAE_M] and [fMAE_P] exist on the
    adaptive classes only and [_attribute_observers] on the active ones; the
    methods of the other classes never read them. *)
Record node : Type := mk_node {
  class_of : node_class;
  _stats : stats;
  _attribute_observers : gmap nat observer;
  perceptron_weight : option loc;
  random_state : RandomState;
  fMAE_M : faded_error;
  fMAE_P : faded_error
}.

Definition set_stats (self : node) (s : stats) : node :=
  mk_node (class_of self) s (_attribute_observers self) (perceptron_weight self)
          (random_state self) (fMAE_M self) (fMAE_P self).

Definition set_attribute_observers (self : node) (o : gmap nat observer) : node :=
  mk_node (class_of self) (_stats self) o (perceptron_weight self)
          (random_state self) (fMAE_M self) (fMAE_P self).

Definition set_perceptron_weight (self : node) (w : option loc) : node :=
  mk_node (class_of self) (_stats self) (_attribute_observers self) w
          (random_state self) (fMAE_M self) (fMAE_P self).

Definition set_random_state (self : node) (rs : RandomState) : node :=
  mk_node (class_of self) (_stats self) (_attribute_observers self)
          (perceptron_weight self) rs (fMAE_M self) (fMAE_P self).

Definition set_fMAE (self : node) (m p : faded_error) : node :=
  mk_node (class_of self) (_stats self) (_attribute_observers self)
          (perceptron_weight self) (random_state self) m p.

(** ** Python objects and attribute access *)

(** The attributes of an object that hold [None] or an array, by name.  For
    a node this is [perceptron_weight] alone: its other instance attributes
    ([_stats], [_attribute_observers], [random_state], [fMAE_M], [fMAE_P])
    and its methods have other names and hold values of other kinds.  The
    base classes [ActiveLearningNodePerceptron] and
    [InactiveLearningNodePerceptron] are not in this file; of them the
    nodes use [_stats] and [_attribute_observers] only. *)
Inductive pyobject : Type :=
| NodeObject (n : node)
| OtherObject (attrs : gmap string (option loc)).

Definition array_attributes (o : pyobject) : gmap string (option loc) :=
  match o with
  | NodeObject n => {[ "perceptron_weight"%string := perceptron_weight n ]}
  | OtherObject attrs => attrs
  end.

(** [o.name], for a name that is read as [None] or an array. *)
Definition getattr (o : pyobject) (name : string) : result (option loc) :=
  match array_attributes o !! name with
  | Some v => Ok v
  | None => Raise AttributeError
  end.

(** [int(x)] for a float: truncation towards zero; the infinities and NaN
    raise. *)
Definition py_int (x : float64) : result Z :=
  match x with
  | Fin q => Ok (Z.quot (Qnum q) (Zpos (Qden q)))
  | Inf _ => Raise OverflowError
  | NaN => Raise ValueError
  end.

(** [for i in range(n): state = step(state)], stopping at the first
    exception. *)
Fixpoint repeat_step {S : Type} (n : nat) (step : S -> result S) (s : S) : result S :=
  match n with
  | O => Ok s
  | Datatypes.S n' => let? s' := step s in repeat_step n' step s'
  end.

(** The loop of [normalize_perceptron_weights], shared by the two classes
    that define it:
<<
    for i in range(n_targets):
        sum_w = np.sum(np.abs(W[i, :]))
        W[i, :] /= sum_w
>> *)
Definition normalize_row (W : matrix) (i : nat) : matrix :=
  match W !! i with
  | Some row =>
      let sum_w := np_sum (np_abs row) in
      <[i := np_div_scalar row sum_w]> W
  | None => W
  end.

Definition normalize_rows (W : matrix) : matrix :=
  fold_left normalize_row (seq 0 (length W)) W.

(** [0.95 * f + v] for a faded error [f] and an array [v]. *)
Definition decay : float64 := Fin (95 # 100).

Definition faded_update (f : faded_error) (v : vec) : result faded_error :=
  match f with
  | PyFloat x => Ok (NdArray (map (fadd (fmul decay x)) v))
  | NdArray u => let? r := np_zip fadd (np_scale decay u) v in Ok (NdArray r)
  end.

(** [self.perceptron_weight += M]: the array is updated in place. *)
Definition iadd_perceptron_weight (self : node) (M : matrix) (h : heap) : result heap :=
  match perceptron_weight self with
  | None => Raise TypeError
  | Some l =>
      let? W := read h l in
      let? W' := np_iadd W M in
      Ok (<[l := W']> h)
  end.

(** The signature of the method [update_weights(X, y, learning_ratio, rht)]:
    the node and the store before, the node and the store after. *)
Definition update_weights_method : Type :=
  node -> vec -> vec -> float64 -> HoeffdingTreeRegressor -> heap ->
  result (node * heap).

(** [for i, x in enumerate(X.tolist())]: the observer of feature [i] is
    created when it is missing, then updated. *)
Fixpoint observe_features (rht : HoeffdingTreeRegressor) (i : nat) (X : vec)
    (y : vec) (weight : float64) (observers : gmap nat observer)
  : gmap nat observer :=
  match X with
  | [] => observers
  | x :: X' =>
      let '(obs, observers) :=
        match observers !! i with
        | Some obs => (obs, observers)
        | None =>
            let obs :=
              match nominal_attributes rht with
              | Some nominal =>
                  if bool_decide (i ∈ nominal)
                  then new_observer NominalAttributeRegressionObserver
                  else new_observer NumericAttributeRegressionObserver
              | None => new_observer NumericAttributeRegressionObserver
              end in
            (obs, <[i := obs]> observers)
        end in
      observe_features rht (S i) X' y weight
        (<[i := observer_update obs x y weight]> observers)
  end.

Module ActiveLearningNodePerceptronMultiTarget.

(** [cls] is the class of the object under construction (this class or
    its adaptive subclass).  Modelled from the spec:
    [super().__init__(initial_stats)], of a base class that is not in this
    file, stores the statistics and an empty dictionary of observers. *)
Definition __init__ (cls : node_class) (initial_stats : stats)
    (parent_node : option pyobject) (random_state : RandomState) (h : heap)
  : result (node * heap) :=
  let self := mk_node cls initial_stats ∅ None random_state
                      (PyFloat f0) (PyFloat f0) in
  match parent_node with
  | None => Ok (set_perceptron_weight self None, h)
  | Some parent =>
      let? w := getattr parent "perceptron_weights" in
      let? (w', h') := deepcopy w h in
      Ok (set_perceptron_weight self w', h')
  end.

(** [self.perceptron_weight.shape] on [None] raises [AttributeError]. *)
Definition normalize_perceptron_weights (self : node) (h : heap) : result heap :=
  match perceptron_weight self with
  | None => Raise AttributeError
  | Some l =>
      let? W := read h l in
      Ok (<[l := normalize_rows W]> h)
  end.

(** [np.matmul(None, X)] raises [ValueError]: [None] is an operand without
    dimensions. *)
Definition predict (self : node) (X : vec) (h : heap) : result vec :=
  match perceptron_weight self with
  | None => Raise ValueError
  | Some l => let? W := read h l in matmul W X
  end.

Definition update_weights (self : node) (X y : vec) (learning_ratio : float64)
    (rht : HoeffdingTreeRegressor) (h : heap) : result (node * heap) :=
  let normalized_sample := normalize_sample rht X in
  let? normalized_pred := predict self normalized_sample h in
  let normalized_target_value := normalize_target_value rht y in
  let? diff := np_zip fsub normalized_target_value normalized_pred in
  let? h := iadd_perceptron_weight self
              (map (np_scale learning_ratio) (outer diff normalized_sample)) h in
  let? h := normalize_perceptron_weights self h in
  Ok (self, h).

(** [update_weights] is the method that [self.update_weights] resolves to
    in the class of [self].  [get_dimensions] of a one-dimensional array
    gives 1 and its length.  The [KeyError] of a key of [_stats] that is
    absent is the one the source catches. *)
Definition learn_from_instance (update_weights : update_weights_method)
    (self : node) (X y : vec) (weight : float64)
    (rht : HoeffdingTreeRegressor) (h : heap) : result (node * heap) :=
  let? (self, h) :=
    match perceptron_weight self with
    | None =>
        let rows := length y in
        let cols := length X in
        let '(W, rs) := uniform (random_state self) rows (cols + 1) in
        let '(l, h) := alloc h W in
        let self := set_random_state (set_perceptron_weight self (Some l)) rs in
        let? h := normalize_perceptron_weights self h in
        Ok (self, h)
    | Some _ => Ok (self, h)
    end in
  let count :=
    match stats_0 (_stats self) with
    | Some c => fadd c weight
    | None => weight
    end in
  let self := set_stats self (mk_stats (Some count) (stats_1 (_stats self))
                                       (stats_2 (_stats self))) in
  let learning_ratio :=
    if learning_ratio_const rht then learning_ratio_perceptron rht
    else fdiv (learning_ratio_perceptron rht)
              (fadd f1 (fmul count (learning_ratio_decay rht))) in
  let wy := np_scale weight y in
  let wyy := zip_with fmul wy y in
  let? (s1, s2) :=
    match stats_1 (_stats self) with
    | None => Ok (wy, wyy)
    | Some s1 =>
        let? wy' := broadcast_to (length s1) wy in
        let s1' := zip_with fadd s1 wy' in
        match stats_2 (_stats self) with
        | None => Ok (wy, wyy)
        | Some s2 =>
            let? wyy' := broadcast_to (length s2) wyy in
            Ok (s1', zip_with fadd s2 wyy')
        end
    end in
  let self := set_stats self (mk_stats (Some count) (Some s1) (Some s2)) in
  let? n := py_int weight in
  let? (self, h) :=
    repeat_step (Z.to_nat n)
      (fun '(self, h) => update_weights self X y learning_ratio rht h)
      (self, h) in
  Ok (set_attribute_observers self
        (observe_features rht 0 X y weight (_attribute_observers self)), h).

Definition total_weight (self : node) : result float64 :=
  if stats_is_empty (_stats self) then Ok f0
  else match stats_0 (_stats self) with
       | Some c => Ok c
       | None => Raise KeyError
       end.

End ActiveLearningNodePerceptronMultiTarget.

Module InactiveLearningNodePerceptronMultiTarget.

(** [cls] is the class of the object under construction (this class or
    its adaptive subclass).  Modelled from the spec:
    [super().__init__(initial_stats)], of a base class that is not in this
    file, stores the statistics.  The parent's array is stored as it is,
    not copied. *)
Definition __init__ (cls : node_class) (initial_stats : stats)
    (parent_node : option pyobject) (random_state : RandomState) (h : heap)
  : result (node * heap) :=
  let self := mk_node cls initial_stats ∅ None random_state
                      (PyFloat f0) (PyFloat f0) in
  match parent_node with
  | None => Ok (set_perceptron_weight self None, h)
  | Some parent =>
      let? w := getattr parent "perceptron_weights" in
      Ok (set_perceptron_weight self w, h)
  end.

(** [self.perceptron_weight.shape] on [None] raises [AttributeError]. *)
Definition normalize_perceptron_weights (self : node) (h : heap) : result heap :=
  match perceptron_weight self with
  | None => Raise AttributeError
  | Some l =>
      let? W := read h l in
      Ok (<[l := normalize_rows W]> h)
  end.

(** [np.matmul(None, X)] raises [ValueError]: [None] is an operand without
    dimensions. *)
Definition predict (self : node) (X : vec) (h : heap) : result vec :=
  match perceptron_weight self with
  | None => Raise ValueError
  | Some l => let? W := read h l in matmul W X
  end.

Definition update_weights (self : node) (X y : vec) (learning_ratio : float64)
    (rht : HoeffdingTreeRegressor) (h : heap) : result (node * heap) :=
  let normalized_sample := normalize_sample rht X in
  let? normalized_pred := predict self normalized_sample h in
  let normalized_target_value := normalize_target_value rht y in
  let? diff := np_zip fsub normalized_target_value normalized_pred in
  let? h := iadd_perceptron_weight self
              (map (np_scale learning_ratio) (outer diff normalized_sample)) h in
  let? h := normalize_perceptron_weights self h in
  Ok (self, h).

(** [update_weights] is the method that [self.update_weights] resolves to
    in the class of [self].  [get_dimensions] of a one-dimensional array
    gives 1 and its length.  The [KeyError] of a key of [_stats] that is
    absent is the one the source catches. *)
Definition learn_from_instance (update_weights : update_weights_method)
    (self : node) (X y : vec) (weight : float64)
    (rht : HoeffdingTreeRegressor) (h : heap) : result (node * heap) :=
  let? (self, h) :=
    match perceptron_weight self with
    | None =>
        let rows := length y in
        let cols := length X in
        let '(W, rs) := uniform (random_state self) rows (cols + 1) in
        let '(l, h) := alloc h W in
        let self := set_random_state (set_perceptron_weight self (Some l)) rs in
        let? h := normalize_perceptron_weights self h in
        Ok (self, h)
    | Some _ => Ok (self, h)
    end in
  let count :=
    match stats_0 (_stats self) with
    | Some c => fadd c weight
    | None => weight
    end in
  let self := set_stats self (mk_stats (Some count) (stats_1 (_stats self))
                                       (stats_2 (_stats self))) in
  let learning_ratio :=
    if learning_ratio_const rht then learning_ratio_perceptron rht
    else fdiv (learning_ratio_perceptron rht)
              (fadd f1 (fmul count (learning_ratio_decay rht))) in
  let wy := np_scale weight y in
  let wyy := zip_with fmul wy y in
  let? (s1, s2) :=
    match stats_1 (_stats self) with
    | None => Ok (wy, wyy)
    | Some s1 =>
        let? wy' := broadcast_to (length s1) wy in
        let s1' := zip_with fadd s1 wy' in
        match stats_2 (_stats self) with
        | None => Ok (wy, wyy)
        | Some s2 =>
            let? wyy' := broadcast_to (length s2) wyy in
            Ok (s1', zip_with fadd s2 wyy')
        end
    end in
  let self := set_stats self (mk_stats (Some count) (Some s1) (Some s2)) in
  let? n := py_int weight in
  repeat_step (Z.to_nat n)
    (fun '(self, h) => update_weights self X y learning_ratio rht h)
    (self, h).

End InactiveLearningNodePerceptronMultiTarget.

(** The two statements that end [update_weights] in the adaptive classes:
<<
    self.fMAE_P = 0.95 * self.fMAE_P + np.abs(
        normalized_target_value - normalized_pred)
    self.fMAE_M = 0.95 * self.fMAE_M + np.abs(
        normalized_target_value - rht.normalize_target_value(
            self._stats[1] / self._stats[0]))
>> *)
Definition update_faded_errors (self : node) (rht : HoeffdingTreeRegressor)
    (normalized_target_value normalized_pred : vec) : result node :=
  let? err_P := np_zip fsub normalized_target_value normalized_pred in
  let? fP := faded_update (fMAE_P self) (np_abs err_P) in
  let self := set_fMAE self (fMAE_M self) fP in
  let? s1 := match stats_1 (_stats self) with
             | Some s => Ok s | None => Raise KeyError end in
  let? s0 := match stats_0 (_stats self) with
             | Some c => Ok c | None => Raise KeyError end in
  let mean := normalize_target_value rht (np_div_scalar s1 s0) in
  let? err_M := np_zip fsub normalized_target_value mean in
  let? fM := faded_update (fMAE_M self) (np_abs err_M) in
  Ok (set_fMAE self fM (fMAE_P self)).

Module ActiveLearningNodeAdaptiveMultiTarget.

(** [super().__init__], [self.predict] and
    [self.normalize_perceptron_weights] are those of the parent class,
    [ActiveLearningNodePerceptronMultiTarget]. *)

Definition __init__ (cls : node_class) (initial_stats : stats)
    (parent_node : option pyobject) (random_state : RandomState) (h : heap)
  : result (node * heap) :=
  let? (self, h) :=
    ActiveLearningNodePerceptronMultiTarget.__init__
      cls initial_stats parent_node random_state h in
  Ok (set_fMAE self (PyFloat f0) (PyFloat f0), h).

Definition update_weights (self : node) (X y : vec) (learning_ratio : float64)
    (rht : HoeffdingTreeRegressor) (h : heap) : result (node * heap) :=
  let normalized_sample := normalize_sample rht X in
  let? normalized_pred :=
    ActiveLearningNodePerceptronMultiTarget.predict self normalized_sample h in
  let normalized_target_value := normalize_target_value rht y in
  let? diff := np_zip fsub normalized_target_value normalized_pred in
  let? h := iadd_perceptron_weight self
              (map (np_scale learning_ratio) (outer diff normalized_sample)) h in
  let? h :=
    ActiveLearningNodePerceptronMultiTarget.normalize_perceptron_weights self h in
  let? self := update_faded_errors self rht normalized_target_value
                 normalized_pred in
  Ok (self, h).

End ActiveLearningNodeAdaptiveMultiTarget.

Module InactiveLearningNodeAdaptiveMultiTarget.

(** [super().__init__], [self.predict] and
    [self.normalize_perceptron_weights] are those of the parent class,
    [InactiveLearningNodePerceptronMultiTarget]. *)

Definition __init__ (cls : node_class) (initial_stats : stats)
    (parent_node : option pyobject) (random_state : RandomState) (h : heap)
  : result (node * heap) :=
  let? (self, h) :=
    InactiveLearningNodePerceptronMultiTarget.__init__
      cls initial_stats parent_node random_state h in
  Ok (set_fMAE self (PyFloat f0) (PyFloat f0), h).

Definition update_weights (self : node) (X y : vec) (learning_ratio : float64)
    (rht : HoeffdingTreeRegressor) (h : heap) : result (node * heap) :=
  let normalized_sample := normalize_sample rht X in
  let? normalized_pred :=
    InactiveLearningNodePerceptronMultiTarget.predict self normalized_sample h in
  let normalized_target_value := normalize_target_value rht y in
  let? diff := np_zip fsub normalized_target_value normalized_pred in
  let? h := iadd_perceptron_weight self
              (map (np_scale learning_ratio) (outer diff normalized_sample)) h in
  let? h :=
    InactiveLearningNodePerceptronMultiTarget.normalize_perceptron_weights self h in
  let? self := update_faded_errors self rht normalized_target_value
                 normalized_pred in
  Ok (self, h).

End InactiveLearningNodeAdaptiveMultiTarget.

(** ** Method resolution

    A call [self.m(...)] runs the definition of [m] found first in the
    classes of [self], the class itself and then its parent. *)

Definition new_node (cls : node_class) (initial_stats : stats)
    (parent_node : option pyobject) (random_state : RandomState) (h : heap)
  : result (node * heap) :=
  match cls with
  | ActivePerceptronMultiTarget =>
      ActiveLearningNodePerceptronMultiTarget.__init__
        cls initial_stats parent_node random_state h
  | InactivePerceptronMultiTarget =>
      InactiveLearningNodePerceptronMultiTarget.__init__
        cls initial_stats parent_node random_state h
  | ActiveAdaptiveMultiTarget =>
      ActiveLearningNodeAdaptiveMultiTarget.__init__
        cls initial_stats parent_node random_state h
  | InactiveAdaptiveMultiTarget =>
      InactiveLearningNodeAdaptiveMultiTarget.__init__
        cls initial_stats parent_node random_state h
  end.

Definition update_weights : update_weights_method :=
  fun self =>
    match class_of self with
    | ActivePerceptronMultiTarget =>
        ActiveLearningNodePerceptronMultiTarget.update_weights self
    | InactivePerceptronMultiTarget =>
        InactiveLearningNodePerceptronMultiTarget.update_weights self
    | ActiveAdaptiveMultiTarget =>
        ActiveLearningNodeAdaptiveMultiTarget.update_weights self
    | InactiveAdaptiveMultiTarget =>
        InactiveLearningNodeAdaptiveMultiTarget.update_weights self
    end.

Definition learn_from_instance (self : node) (X y : vec) (weight : float64)
    (rht : HoeffdingTreeRegressor) (h : heap) : result (node * heap) :=
  if is_active (class_of self)
  then ActiveLearningNodePerceptronMultiTarget.learn_from_instance
         update_weights self X y weight rht h
  else InactiveLearningNodePerceptronMultiTarget.learn_from_instance
         update_weights self X y weight rht h.

Definition predict (self : node) (X : vec) (h : heap) : result vec :=
  if is_active (class_of self)
  then ActiveLearningNodePerceptronMultiTarget.predict self X h
  else InactiveLearningNodePerceptronMultiTarget.predict self X h.

Definition normalize_perceptron_weights (self : node) (h : heap) : result heap :=
  if is_active (class_of self)
  then ActiveLearningNodePerceptronMultiTarget.normalize_perceptron_weights self h
  else InactiveLearningNodePerceptronMultiTarget.normalize_perceptron_weights self h.

(** Modelled from the spec: [total_weight] of the inactive classes.  They
    inherit it from [InactiveLearningNodePerceptron], which is not in this
    file; the spec (4.1) gives it as [count], or 0 when nothing was
    observed. *)
Definition inherited_total_weight (self : node) : result float64 :=
  match stats_0 (_stats self) with
  | Some c => Ok c
  | None => Ok f0
  end.

Definition total_weight (self : node) : result float64 :=
  if is_active (class_of self)
  then ActiveLearningNodePerceptronMultiTarget.total_weight self
  else inherited_total_weight self.

(** The instances of a stream, and a node learning from them in turn. *)
Record instance : Type := mk_instance {
  inst_X : vec;
  inst_y : vec;
  inst_weight : float64
}.

Fixpoint learn_all (self : node) (instances : list instance)
    (rht : HoeffdingTreeRegressor) (h : heap) : result (node * heap) :=
  match instances with
  | [] => Ok (self, h)
  | i :: rest =>
      let? (self, h) :=
        learn_from_instance self (inst_X i) (inst_y i) (inst_weight i) rht h in
      learn_all self rest rht h
  end.

(** ** Specification vocabulary *)

(** The absolute-value sum of a row, [np.sum(np.abs(row))]. *)
Definition l1_norm (row : vec) : float64 := np_sum (np_abs row).

(** The same sum for a row of finite numbers, on the rationals. *)
Definition Qsum_abs (qs : list Q) : Q := fold_right Qplus 0 (map Qabs qs).

(** What the loop of [normalize_perceptron_weights] does to one row. *)
Definition divide_row (row : vec) : vec := np_div_scalar row (l1_norm row).


(** The weight matrix of [update_weights] after
    [self.perceptron_weight += ...] and before the normalization. *)
Definition raw_update (self : node) (X y : vec) (learning_ratio : float64)
    (rht : HoeffdingTreeRegressor) (h : heap) : result matrix :=
  let normalized_sample := normalize_sample rht X in
  let? normalized_pred := predict self normalized_sample h in
  let? diff := np_zip fsub (normalize_target_value rht y) normalized_pred in
  match perceptron_weight self with
  | None => Raise TypeError
  | Some l =>
      let? W := read h l in
      np_iadd W (map (np_scale learning_ratio) (outer diff normalized_sample))
  end.

(** [update_weights], the four definitions at once: the raw matrix is
    normalized in place and, in the adaptive classes, the faded errors are
    updated with the prediction made before the step. *)
Definition update_weights_spec (self : node) (X y : vec) (learning_ratio : float64)
    (rht : HoeffdingTreeRegressor) (h : heap) : result (node * heap) :=
  let? raw := raw_update self X y learning_ratio rht h in
  match perceptron_weight self with
  | None => Raise TypeError
  | Some l =>
      let h' := <[l := normalize_rows raw]> h in
      if is_adaptive (class_of self)
      then
        let? pred := predict self (normalize_sample rht X) h in
        let? self' := update_faded_errors self rht (normalize_target_value rht y)
                        pred in
        Ok (self', h')
      else Ok (self, h')
  end.

(** The block that opens [learn_from_instance]:
<<
    if self.perceptron_weight is None:
        _, rows = get_dimensions(y)
        _, cols = get_dimensions(X)
        self.perceptron_weight = self.random_state.uniform(-1.0, 1.0, (rows, cols + 1))
        self.normalize_perceptron_weights()
>> *)
Definition initialize_weights (self : node) (X y : vec) (h : heap)
  : result (node * heap) :=
  match perceptron_weight self with
  | None =>
      let '(W, rs) := uniform (random_state self) (length y) (length X + 1) in
      let '(l, h) := alloc h W in
      let self := set_random_state (set_perceptron_weight self (Some l)) rs in
      let? h := normalize_perceptron_weights self h in
      Ok (self, h)
  | Some _ => Ok (self, h)
  end.

(** The accumulator of [learn_from_instance]: the count, then the sums of
    the targets and of their squares, with the instance weight as given. *)
Definition new_count (s : stats) (weight : float64) : float64 :=
  match stats_0 s with
  | Some c => fadd c weight
  | None => weight
  end.

Definition observe (s : stats) (y : vec) (weight : float64) : result stats :=
  let wy := np_scale weight y in
  let wyy := zip_with fmul wy y in
  match stats_1 s with
  | None => Ok (mk_stats (Some (new_count s weight)) (Some wy) (Some wyy))
  | Some s1 =>
      let? wy' := broadcast_to (length s1) wy in
      match stats_2 s with
      | None => Ok (mk_stats (Some (new_count s weight)) (Some wy) (Some wyy))
      | Some s2 =>
          let? wyy' := broadcast_to (length s2) wyy in
          Ok (mk_stats (Some (new_count s weight))
                       (Some (zip_with fadd s1 wy')) (Some (zip_with fadd s2 wyy')))
      end
  end.

(** The learning rate for a given count. *)
Definition learning_ratio_for (rht : HoeffdingTreeRegressor) (count : float64)
  : float64 :=
  if learning_ratio_const rht then learning_ratio_perceptron rht
  else fdiv (learning_ratio_perceptron rht)
            (fadd f1 (fmul count (learning_ratio_decay rht))).

(** [n] calls of [self.update_weights(X, y, learning_ratio, rht)]. *)
Definition gradient_steps (n : nat) (X y : vec) (learning_ratio : float64)
    (rht : HoeffdingTreeRegressor) (s : node * heap) : result (node * heap) :=
  repeat_step n (fun '(self, h) => update_weights self X y learning_ratio rht h) s.

(** The end of [learn_from_instance]: the observers, on the active
    classes. *)
Definition update_observers (self : node) (X y : vec) (weight : float64)
    (rht : HoeffdingTreeRegressor) : node :=
  if is_active (class_of self)
  then set_attribute_observers self
         (observe_features rht 0 X y weight (_attribute_observers self))
  else self.

(** [learn_from_instance] with a given number of gradient steps. *)
Definition learn_with_steps (n : nat) (self : node) (X y : vec) (weight : float64)
    (rht : HoeffdingTreeRegressor) (h : heap) : result (node * heap) :=
  let? (self1, h1) := initialize_weights self X y h in
  let? st := observe (_stats self1) y weight in
  let learning_ratio := learning_ratio_for rht (new_count (_stats self1) weight) in
  let? (self3, h3) :=
    gradient_steps n X y learning_ratio rht (set_stats self1 st, h1) in
  Ok (update_observers self3 X y weight rht, h3).

(** ** Sample inputs *)

(** A regressor whose running means are 0 and standard deviations 1: the
    normalizations leave the values as they are, and [normalize_sample]
    appends the bias term. *)
Definition unit_rht : HoeffdingTreeRegressor :=
  mk_rht false (Fin (1 # 50)) (Fin (1 # 1000)) None
         (fun X => X ++ [f1]) (fun y => y).

(** A generator whose draws are -1/2, -1/4, 0, 1/4, ... *)
Definition sample_random_state : RandomState :=
  mk_random_state (fun n => Fin ((Z.of_nat n - 2) # 4)) 0.

(** A node as its constructor leaves it without a parent. *)
Definition fresh_node (cls : node_class) : node :=
  mk_node cls empty_stats ∅ None sample_random_state (PyFloat f0) (PyFloat f0).

(** A store with one array, [[1/2, 1/2]], and nodes that hold it as their
    weights after one instance of weight 1. *)
Definition sample_heap : heap := {[ 1%positive := [[Fin (1 # 2); Fin (1 # 2)]] ]}.

Definition sample_node (cls : node_class) : node :=
  mk_node cls (mk_stats (Some f1) (Some [f1]) (Some [f1])) ∅ (Some 1%positive)
          sample_random_state (NdArray [f1]) (NdArray [f1]).

(** A store whose array has a row of zeros. *)
Definition zero_row_heap : heap :=
  {[ 1%positive := [[Fin 0; Fin 0]; [Fin 1; Fin (-3)]] ]}.

(** A normalization that leaves alone the rows whose absolute-value sum is
    exactly zero: [W'] has the rows of [W] at the indices of such rows. *)
Definition zero_rows_kept (W W' : matrix) : Prop :=
  forall (i : nat) (row : vec),
    W !! i = Some row -> feq (l1_norm row) f0 -> W' !! i = Some row.




(** Three instances, of weights 1.7, 0 and 2. *)
Definition sample_instances : list instance :=
  [ mk_instance [Fin 1; Fin 2] [Fin 3] (Fin (17 # 10));
    mk_instance [Fin 0; Fin 1] [Fin 1] (Fin 0);
    mk_instance [Fin 2; Fin 2] [Fin 5] (Fin 2) ].

(** The same node state under another class. *)
Definition with_class (self : node) (cls : node_class) : node :=
  mk_node cls (_stats self) (_attribute_observers self) (perceptron_weight self)
          (random_state self) (fMAE_M self) (fMAE_P self).

(** The active and the inactive class of the same predictor kind. *)
Definition active_class (cls : node_class) : node_class :=
  if is_adaptive cls then ActiveAdaptiveMultiTarget else ActivePerceptronMultiTarget.

Definition inactive_class (cls : node_class) : node_class :=
  if is_adaptive cls then InactiveAdaptiveMultiTarget
  else InactivePerceptronMultiTarget.

(** What an inactive node keeps of the result of its active counterpart:
    everything but the class and the observers, which stay [observers]. *)
Definition as_inactive (cls : node_class) (observers : gmap nat observer)
    (r : node * heap) : node * heap :=
  (with_class (set_attribute_observers r.1 observers) (inactive_class cls), r.2).

(** An object that defines the attribute [perceptron_weights], bound to the
    array of [sample_heap] (for instance an object of a subclass that adds
    the attribute). *)
Definition parent_with_weights : pyobject :=
  OtherObject {[ "perceptron_weights"%string := Some 1%positive ]}.




(** ** Further vocabulary *)

(** The class of the observer that [learn_from_instance] creates for the
    feature of index [i]. *)
Definition feature_observer_class (rht : HoeffdingTreeRegressor) (i : nat)
  : observer_class :=
  match nominal_attributes rht with
  | Some nominal =>
      if bool_decide (i ∈ nominal) then NominalAttributeRegressionObserver
      else NumericAttributeRegressionObserver
  | None => NumericAttributeRegressionObserver
  end.

(** The observer of feature [i] before it is updated: the one the node
    holds, or a new one. *)
Definition observer_before (rht : HoeffdingTreeRegressor)
    (observers : gmap nat observer) (i : nat) : observer :=
  match observers !! i with
  | Some obs => obs
  | None => new_observer (feature_observer_class rht i)
  end.

(** The sample regressor with the feature of index 1 declared nominal. *)
Definition nominal_rht : HoeffdingTreeRegressor :=
  mk_rht false (Fin (1 # 50)) (Fin (1 # 1000)) (Some [1%nat])
         (fun X => X ++ [f1]) (fun y => y).

(** A matrix of [r] rows and [c] columns. *)
Definition has_shape (r c : nat) (W : matrix) : Prop :=
  length W = r /\ Forall (fun row => length row = c) W.

(** A regressor whose normalizations keep the dimensions: the normalized
    sample has one entry per feature and one for the bias, the normalized
    target one entry per target. *)
Definition keeps_dimensions (rht : HoeffdingTreeRegressor) : Prop :=
  (forall X, length (normalize_sample rht X) = S (length X))
  /\ (forall y, length (normalize_target_value rht y) = length y).

(** A node that fits instances of [n] features and [m] targets: what it
    holds of weights, of sums of targets and of faded errors as arrays has
    these dimensions. *)
Definition node_fits (n m : nat) (self : node) (h : heap) : Prop :=
  (forall l, perceptron_weight self = Some l ->
             exists W, h !! l = Some W /\ has_shape m (n + 1) W)
  /\ (forall s, stats_1 (_stats self) = Some s -> length s = m)
  /\ (forall s, stats_2 (_stats self) = Some s -> length s = m)
  /\ (forall v, fMAE_P self = NdArray v -> length v = m)
  /\ (forall v, fMAE_M self = NdArray v -> length v = m).

(** An instance of [n] features and [m] targets whose weight is a number. *)
Definition instance_fits (n m : nat) (i : instance) : Prop :=
  length (inst_X i) = n /\ length (inst_y i) = m /\ is_finite (inst_weight i) = true.


(** The sum over a stream of [f weight target], target by target, for [m]
    targets. *)
Fixpoint Qweighted_sums (f : Q -> Q -> Q) (m : nat) (data : list (Q * list Q))
  : list Q :=
  match data with
  | [] => repeat 0 m
  | d :: rest => zip_with Qplus (map (f d.1) d.2) (Qweighted_sums f m rest)
  end.


(** The perceptron-only class of the same activity. *)
Definition perceptron_class (cls : node_class) : node_class :=
  if is_active cls then ActivePerceptronMultiTarget
  else InactivePerceptronMultiTarget.

(** The node that a perceptron-only node is after what made [self'] of a
    node with the faded errors [m] and [p]: [self'] but for the class and
    for the faded errors, which it never writes. *)
Definition without_faded_errors (m p : faded_error) (self' : node) : node :=
  with_class (set_fMAE self' m p) (perceptron_class (class_of self')).


(** [x < 0] is false: [x] is a number that is at least 0, or [+inf], or
    NaN. *)
Definition not_negative (x : float64) : Prop :=
  match x with
  | Fin q => 0 <= q
  | Inf negative => negative = false
  | NaN => True
  end.

Definition faded_error_not_negative (f : faded_error) : Prop :=
  match f with
  | PyFloat x => not_negative x
  | NdArray v => Forall not_negative v
  end.
(** * Properties *)

(** ** Arithmetic of the float64 model *)

Lemma Qis_zero_true (q : Q) : Qis_zero q = true <-> q == 0.
Proof. unfold Qis_zero. apply Qeq_bool_iff. Qed.

Lemma Qis_zero_false (q : Q) : Qis_zero q = false <-> ~ q == 0.
Proof.
  rewrite <- Qis_zero_true. destruct (Qis_zero q); split; intros; congruence.
Qed.


(** The sum of the absolute values of a list of rationals. *)
Lemma fold_fadd_Fin (qs : list Q) (a : Q) :
  exists b, fold_left fadd (map Fin qs) (Fin a) = Fin b /\
            b == a + fold_right Qplus 0 qs /\
            (qs <> [] -> Qred b = b).
Proof.
  revert a. induction qs as [|q qs IH]; intros a; simpl.
  - exists a. split; [reflexivity|]. split; [ring | congruence].
  - destruct (IH (Qred (a + q))) as (b & Hb & Hsum & Hred).
    exists b. split; [exact Hb|]. split.
    + rewrite Hsum, Qred_correct. ring.
    + intros _. destruct qs as [|q' qs].
      * simpl in Hb. injection Hb as <-. apply Qred_complete, Qred_correct.
      * apply Hred. discriminate.
Qed.

(** An accumulator that left the finite numbers never comes back when
    absolute values are added to it. *)
Lemma fold_fadd_abs_not_finite (v : vec) (acc : float64) :
  acc = Inf false \/ acc = NaN ->
  fold_left fadd (map fabs v) acc = Inf false \/
  fold_left fadd (map fabs v) acc = NaN.
Proof.
  revert acc. induction v as [|x v IH]; intros acc Hacc; simpl; [exact Hacc|].
  apply IH. destruct Hacc as [-> | ->]; destruct x as [q|s|]; simpl; auto.
Qed.

Lemma fold_fadd_abs_finite (v : vec) (a s : Q) :
  fold_left fadd (map fabs v) (Fin a) = Fin s ->
  exists qs, v = map Fin qs.
Proof.
  revert a. induction v as [|x v IH]; intros a H; simpl in H.
  - exists []. reflexivity.
  - destruct x as [q|neg|]; simpl in H.
    + destruct (IH _ H) as [qs ->]. exists (q :: qs). reflexivity.
    + destruct (fold_fadd_abs_not_finite v (Inf false)) as [E|E]; auto;
        rewrite E in H; discriminate.
    + destruct (fold_fadd_abs_not_finite v NaN) as [E|E]; auto;
        rewrite E in H; discriminate.
Qed.

Lemma Qsum_abs_nonneg (qs : list Q) : 0 <= Qsum_abs qs.
Proof.
  unfold Qsum_abs. induction qs as [|q qs IH]; simpl; [apply Qle_refl|].
  pose proof (Qabs_nonneg q). lra.
Qed.

Lemma l1_norm_Fin (qs : list Q) :
  exists b, l1_norm (map Fin qs) = Fin b /\ b == Qsum_abs qs /\
            (qs <> [] -> Qred b = b).
Proof.
  unfold l1_norm, np_sum, np_abs, f0.
  replace (map fabs (map Fin qs))
    with (map Fin (map (fun q => Qred (Qabs q)) qs))
    by (rewrite !map_map; reflexivity).
  destruct (fold_fadd_Fin (map (fun q => Qred (Qabs q)) qs) 0)
    as (b & Hb & Hsum & Hred).
  exists b. split; [exact Hb|]. split.
  - rewrite Hsum. unfold Qsum_abs. clear.
    induction qs as [|q qs IH]; simpl; [ring|].
    rewrite Qred_correct. lra.
  - intros Hne. apply Hred. destruct qs; [congruence | discriminate].
Qed.

Lemma l1_norm_finite (row : vec) (s : Q) :
  l1_norm row = Fin s ->
  exists qs, row = map Fin qs /\ s == Qsum_abs qs.
Proof.
  intros H. destruct (fold_fadd_abs_finite row 0 s H) as [qs ->].
  exists qs. split; [reflexivity|].
  destruct (l1_norm_Fin qs) as (b & Hb & Hsum & _).
  rewrite Hb in H. injection H as <-. exact Hsum.
Qed.





(** ** The normalization loop *)

Lemma normalize_row_middle (pre post : matrix) (row : vec) :
  normalize_row (pre ++ row :: post) (length pre) = pre ++ divide_row row :: post.
Proof.
  unfold normalize_row.
  rewrite list_lookup_middle by reflexivity.
  replace (length pre) with (length pre + 0)%nat at 1 by lia.
  rewrite insert_app_r. reflexivity.
Qed.

Lemma normalize_loop (post pre : matrix) :
  fold_left normalize_row (seq (length pre) (length post)) (pre ++ post)
  = pre ++ map divide_row post.
Proof.
  revert pre. induction post as [|row post IH]; intros pre; simpl.
  - reflexivity.
  - rewrite normalize_row_middle.
    replace (pre ++ divide_row row :: post)
      with ((pre ++ [divide_row row]) ++ post)
      by (rewrite <- app_assoc; reflexivity).
    replace (S (length pre)) with (length (pre ++ [divide_row row]))
      by (rewrite length_app; simpl; lia).
    rewrite IH, <- app_assoc. reflexivity.
Qed.

(** The loop divides every row by its own absolute-value sum. *)
Lemma normalize_rows_map (W : matrix) : normalize_rows W = map divide_row W.
Proof. exact (normalize_loop W []). Qed.


(** ** The four [update_weights] *)

Lemma update_weights_eq (self : node) (X y : vec) (lr : float64)
    (rht : HoeffdingTreeRegressor) (h : heap) :
  update_weights self X y lr rht h = update_weights_spec self X y lr rht h.
Proof.
  unfold update_weights, update_weights_spec, raw_update, predict.
  destruct self as [cls st obs w rs fm fp]; simpl.
  destruct cls; simpl;
    unfold ActiveLearningNodePerceptronMultiTarget.update_weights,
           InactiveLearningNodePerceptronMultiTarget.update_weights,
           ActiveLearningNodeAdaptiveMultiTarget.update_weights,
           InactiveLearningNodeAdaptiveMultiTarget.update_weights,
           ActiveLearningNodePerceptronMultiTarget.predict,
           InactiveLearningNodePerceptronMultiTarget.predict,
           ActiveLearningNodePerceptronMultiTarget.normalize_perceptron_weights,
           InactiveLearningNodePerceptronMultiTarget.normalize_perceptron_weights,
           iadd_perceptron_weight, read; simpl;
    (destruct w as [l|]; simpl; [|reflexivity]);
    (destruct (h !! l) as [W|] eqn:HW; simpl; [|reflexivity]);
    (destruct (matmul W (normalize_sample rht X)) as [pred|] eqn:Hp; simpl;
       [|reflexivity]);
    (destruct (np_zip fsub (normalize_target_value rht y) pred) as [diff|] eqn:Hd;
       simpl; [|reflexivity]);
    (destruct (np_iadd W _) as [raw|] eqn:Hraw; simpl; [|reflexivity]);
    rewrite lookup_insert_eq; simpl; rewrite insert_insert_eq; reflexivity.
Qed.

(** [update_weights] writes the faded errors of the node and nothing else
    of it. *)
Lemma update_faded_errors_frame (self self' : node) rht (t p : vec) :
  update_faded_errors self rht t p = Ok self' ->
  self' = set_fMAE self (fMAE_M self') (fMAE_P self').
Proof.
  unfold update_faded_errors. intros H.
  destruct (np_zip fsub t p); simpl in H; [|discriminate].
  destruct (faded_update (fMAE_P self) _); simpl in H; [|discriminate].
  destruct (stats_1 (_stats self)); simpl in H; [|discriminate].
  destruct (stats_0 (_stats self)); simpl in H; [|discriminate].
  destruct (np_zip fsub t _); simpl in H; [|discriminate].
  destruct (faded_update (fMAE_M self) _); simpl in H; [|discriminate].
  injection H as <-. destruct self; reflexivity.
Qed.

Lemma update_weights_frame (self self' : node) X y lr rht (h h' : heap) :
  update_weights self X y lr rht h = Ok (self', h') ->
  self' = set_fMAE self (fMAE_M self') (fMAE_P self').
Proof.
  rewrite update_weights_eq. unfold update_weights_spec. intros H.
  destruct (raw_update self X y lr rht h); simpl in H; [|discriminate].
  destruct (perceptron_weight self); [|discriminate].
  destruct (is_adaptive (class_of self)).
  - destruct (predict self _ h); simpl in H; [|discriminate].
    destruct (update_faded_errors self rht _ _) eqn:E; simpl in H; [|discriminate].
    injection H as <- _. eapply update_faded_errors_frame, E.
  - injection H as <- _. destruct self; reflexivity.
Qed.

Lemma gradient_steps_frame (n : nat) X y lr rht (self self' : node) (h h' : heap) :
  gradient_steps n X y lr rht (self, h) = Ok (self', h') ->
  self' = set_fMAE self (fMAE_M self') (fMAE_P self').
Proof.
  unfold gradient_steps. revert self h.
  induction n as [|n IH]; intros self h H; simpl in H.
  - injection H as <- _. destruct self; reflexivity.
  - destruct (update_weights self X y lr rht h) as [[self1 h1]|] eqn:E;
      simpl in H; [|discriminate].
    apply IH in H. apply update_weights_frame in E.
    rewrite H, E. reflexivity.
Qed.

(** ** [learn_from_instance] *)

Lemma py_int_nonneg (q : Q) :
  0 <= q -> py_int (Fin q) = Ok (Qfloor q).
Proof.
  intros Hq. destruct q as [n d]. simpl. f_equal.
  apply Z.quot_div_nonneg; [|lia].
  unfold Qle in Hq. simpl in Hq. lia.
Qed.

Arguments fadd : simpl never.
Arguments fmul : simpl never.
Arguments fdiv : simpl never.
Arguments fsub : simpl never.
Arguments uniform : simpl never.
Arguments alloc : simpl never.

Lemma rbind_ext {A B} (r1 r2 : result A) (k1 k2 : A -> result B) :
  r1 = r2 -> (forall a, r2 = Ok a -> k1 a = k2 a) -> rbind r1 k1 = rbind r2 k2.
Proof. intros -> H. destruct r2; simpl; [apply H|]; reflexivity. Qed.

Lemma initialize_weights_class (self self1 : node) X y (h h1 : heap) :
  initialize_weights self X y h = Ok (self1, h1) -> class_of self1 = class_of self.
Proof.
  unfold initialize_weights. destruct (perceptron_weight self).
  - intros [= <- _]. reflexivity.
  - destruct (uniform _ _ _) as [W rs]. destruct (alloc h W) as [l h0].
    destruct (normalize_perceptron_weights _ h0); simpl; [|discriminate].
    intros [= <- _]. reflexivity.
Qed.

Lemma learn_tail (cls : node_class) (n : nat) X y lr weight rht (self : node) (h : heap) :
  class_of self = cls ->
  (let? (self3, h3) :=
     repeat_step n (fun '(self, h0) => update_weights self X y lr rht h0) (self, h) in
   Ok (if is_active cls
       then set_attribute_observers self3
              (observe_features rht 0 X y weight (_attribute_observers self3))
       else self3, h3)) =
  (let? (self3, h3) :=
     repeat_step n (fun '(self, h0) => update_weights self X y lr rht h0) (self, h) in
   Ok (if is_active (class_of self3)
       then set_attribute_observers self3
              (observe_features rht 0 X y weight (_attribute_observers self3))
       else self3, h3)).
Proof.
  intros Hc.
  destruct (repeat_step n _ (self, h)) as [[self3 h3]|] eqn:E; simpl; [|reflexivity].
  apply (gradient_steps_frame n X y lr rht) in E.
  rewrite E. simpl. rewrite Hc. reflexivity.
Qed.

Lemma learn_from_instance_steps (self : node) (X y : vec) (weight : float64)
    (rht : HoeffdingTreeRegressor) (h : heap) (n : Z) :
  py_int weight = Ok n ->
  learn_from_instance self X y weight rht h =
  learn_with_steps (Z.to_nat n) self X y weight rht h.
Proof.
  intros Hn.
  unfold learn_from_instance, learn_with_steps.
  destruct (is_active (class_of self)) eqn:Hact;
    [unfold ActiveLearningNodePerceptronMultiTarget.learn_from_instance
    |unfold InactiveLearningNodePerceptronMultiTarget.learn_from_instance];
    (apply rbind_ext;
     [ unfold initialize_weights, normalize_perceptron_weights;
       destruct (perceptron_weight self); [reflexivity|];
       destruct (uniform _ _ _) as [W rs]; destruct (alloc h W) as [l h0]; simpl;
       rewrite Hact; reflexivity
     | intros [self1 h1] Hinit;
       apply initialize_weights_class in Hinit;
       rewrite Hn; unfold observe, update_observers, gradient_steps,
         learning_ratio_for, new_count;
       destruct self1 as [cls st obs w rs fm fp]; simpl in *; subst cls;
       destruct st as [s0 [s1|] s2]; simpl;
       [ destruct (broadcast_to (length s1) _); simpl; [|reflexivity];
         destruct s2 as [s2|]; simpl;
         [destruct (broadcast_to (length s2) _); simpl; [|reflexivity]|] | ];
       unfold set_stats; simpl;
       rewrite <- (learn_tail (class_of self)) by reflexivity; rewrite Hact;
       try reflexivity;
       match goal with
       | |- ?r = _ => destruct r as [[? ?]|]; reflexivity
       end ]).
Qed.

Lemma initialize_weights_stats (self self1 : node) X y (h h1 : heap) :
  initialize_weights self X y h = Ok (self1, h1) -> _stats self1 = _stats self.
Proof.
  unfold initialize_weights. destruct (perceptron_weight self).
  - intros [= <- _]. reflexivity.
  - destruct (uniform _ _ _) as [W rs]. destruct (alloc h W) as [l h0].
    destruct (normalize_perceptron_weights _ h0); simpl; [|discriminate].
    intros [= <- _]. reflexivity.
Qed.

Lemma update_observers_stats (self : node) X y weight rht :
  _stats (update_observers self X y weight rht) = _stats self.
Proof. unfold update_observers. destruct (is_active _); reflexivity. Qed.

(** The statistics a successful call leaves are those of [observe]. *)
Lemma learn_with_steps_stats (n : nat) (self self' : node) X y weight rht
    (h h' : heap) :
  learn_with_steps n self X y weight rht h = Ok (self', h') ->
  observe (_stats self) y weight = Ok (_stats self').
Proof.
  unfold learn_with_steps. intros H.
  destruct (initialize_weights self X y h) as [[self1 h1]|] eqn:Hi;
    simpl in H; [|discriminate].
  rewrite (initialize_weights_stats _ _ _ _ _ _ Hi) in H.
  destruct (observe (_stats self) y weight) as [st|] eqn:Ho; simpl in H;
    [|discriminate].
  destruct (gradient_steps n X y _ rht _) as [[self3 h3]|] eqn:Hg; simpl in H;
    [|discriminate].
  injection H as <- _. rewrite update_observers_stats.
  apply gradient_steps_frame in Hg. rewrite Hg. reflexivity.
Qed.

Lemma broadcast_to_same {A} (l : list A) : broadcast_to (length l) l = Ok l.
Proof. unfold broadcast_to. rewrite Nat.eqb_refl. reflexivity. Qed.

Lemma length_np_scale (c : float64) (v : vec) : length (np_scale c v) = length v.
Proof. apply length_map. Qed.

(** C3. For an instance of weight [q >= 0], [learn_from_instance] is
    [learn_with_steps] with exactly [floor q] calls of [update_weights]
    (none when [q < 1], the fractional part of [q] dropped), and the count
    and the two sums it leaves are accumulated with the whole of [q]. *)
Theorem learn_from_instance_floor_weight_steps (self : node) (X y : vec) (q : Q)
    (rht : HoeffdingTreeRegressor) (h : heap) :
  0 <= q ->
  learn_from_instance self X y (Fin q) rht h
  = learn_with_steps (Z.to_nat (Qfloor q)) self X y (Fin q) rht h
  /\ forall self' h',
       learn_from_instance self X y (Fin q) rht h = Ok (self', h') ->
       let wy := np_scale (Fin q) y in
       let wyy := zip_with fmul wy y in
       stats_0 (_stats self') =
         Some (match stats_0 (_stats self) with
               | Some c => fadd c (Fin q)
               | None => Fin q
               end)
       /\ match stats_1 (_stats self), stats_2 (_stats self) with
          | Some s1, Some s2 =>
              length s1 = length y -> length s2 = length y ->
              stats_1 (_stats self') = Some (zip_with fadd s1 wy) /\
              stats_2 (_stats self') = Some (zip_with fadd s2 wyy)
          | _, _ =>
              stats_1 (_stats self') = Some wy /\
              stats_2 (_stats self') = Some wyy
          end.
Proof.
  intros Hq.
  pose proof (learn_from_instance_steps self X y (Fin q) rht h _
                (py_int_nonneg q Hq)) as Heq.
  split; [exact Heq|].
  intros self' h' H. rewrite Heq in H.
  apply learn_with_steps_stats in H. revert H.
  unfold observe, new_count. cbv zeta.
  destruct (stats_1 (_stats self)) as [s1|] eqn:H1.
  - destruct (broadcast_to (length s1) _) as [wy'|] eqn:Hb1; simpl;
      [|discriminate].
    destruct (stats_2 (_stats self)) as [s2|] eqn:H2.
    + destruct (broadcast_to (length s2) _) as [wyy'|] eqn:Hb2; simpl;
        [|discriminate].
      intros [= <-]. simpl. split; [reflexivity|]. intros L1 L2.
      rewrite <- (length_np_scale (Fin q) y) in L1.
      rewrite L1, broadcast_to_same in Hb1. injection Hb1 as <-.
      assert (L3 : length s2 = length (zip_with fmul (np_scale (Fin q) y) y)).
      { rewrite length_zip_with, length_np_scale. lia. }
      rewrite L3, broadcast_to_same in Hb2. injection Hb2 as <-.
      split; reflexivity.
    + intros [= <-]. simpl. repeat split; reflexivity.
  - intros [= <-]. simpl. repeat split; reflexivity.
Qed.

Lemma learn_from_instance_floor_weight_steps_witness :
  0 <= 17 # 10
  /\ learn_from_instance (fresh_node ActiveAdaptiveMultiTarget)
       [Fin 1; Fin 2] [Fin 3] (Fin (17 # 10)) unit_rht ∅
     = learn_with_steps 1 (fresh_node ActiveAdaptiveMultiTarget)
         [Fin 1; Fin 2] [Fin 3] (Fin (17 # 10)) unit_rht ∅
  /\ exists (self' : node) (h' : heap),
       learn_from_instance (fresh_node ActiveAdaptiveMultiTarget)
         [Fin 1; Fin 2] [Fin 3] (Fin (17 # 10)) unit_rht ∅ = Ok (self', h')
       /\ stats_0 (_stats self') = Some (Fin (17 # 10))
       /\ stats_1 (_stats self') = Some [Fin (51 # 10)]
       /\ stats_2 (_stats self') = Some [Fin (153 # 10)].
Proof.
  assert (Hq : 0 <= 17 # 10) by (unfold Qle; simpl; lia).
  destruct (learn_from_instance_floor_weight_steps
              (fresh_node ActiveAdaptiveMultiTarget) [Fin 1; Fin 2] [Fin 3]
              (17 # 10) unit_rht ∅ Hq) as [E HS].
  split; [exact Hq|]. split; [exact E|].
  assert (R : exists s, learn_from_instance (fresh_node ActiveAdaptiveMultiTarget)
                [Fin 1; Fin 2] [Fin 3] (Fin (17 # 10)) unit_rht ∅ = Ok s).
  { eexists. vm_compute. reflexivity. }
  destruct R as [[self' h'] R]. exists self', h'. split; [exact R|].
  destruct (HS self' h' R) as (H0 & H1 & H2).
  split; [exact H0|]. split; [exact H1 | exact H2].
Defined.
Lemma learn_from_instance_py_int (self self' : node) X y weight rht (h h' : heap) :
  learn_from_instance self X y weight rht h = Ok (self', h') ->
  exists n, py_int weight = Ok n.
Proof.
  destruct (py_int weight) as [n|e] eqn:Hn; [eauto|]. intros H. exfalso.
  revert H. unfold learn_from_instance.
  destruct (is_active (class_of self));
    [unfold ActiveLearningNodePerceptronMultiTarget.learn_from_instance
    |unfold InactiveLearningNodePerceptronMultiTarget.learn_from_instance];
    rewrite Hn;
    (match goal with |- context [rbind ?r _] => destruct r as [[self1 h1]|] end;
     simpl; [|discriminate]);
    (match goal with |- context [rbind ?r _] => destruct r as [[s1 s2]|] end;
     simpl; discriminate).
Qed.

Lemma total_weight_counted (self : node) (c : float64) :
  stats_0 (_stats self) = Some c -> stats_is_empty (_stats self) = false ->
  total_weight self = Ok c.
Proof.
  intros H0 Hne.
  unfold total_weight, ActiveLearningNodePerceptronMultiTarget.total_weight,
    inherited_total_weight.
  rewrite H0, Hne. destruct (is_active _); reflexivity.
Qed.



Lemma observe_count (s st : stats) y weight :
  observe s y weight = Ok st ->
  stats_0 st = Some (new_count s weight) /\ stats_is_empty st = false.
Proof.
  unfold observe.
  destruct (stats_1 s) as [s1|].
  - destruct (broadcast_to _ _); simpl; [|discriminate].
    destruct (stats_2 s) as [s2|].
    + destruct (broadcast_to _ _); simpl; [|discriminate].
      intros [= <-]. split; reflexivity.
    + intros [= <-]. split; reflexivity.
  - intros [= <-]. split; reflexivity.
Qed.

(** C4. In a call of [learn_from_instance] the learning rate is
    [learning_ratio_perceptron] when [learning_ratio_const] is set and
    [learning_ratio_perceptron / (1 + count * learning_ratio_decay)]
    otherwise, where [count] is the total weight of the node with the weight
    of the current instance already added; all the gradient steps of the
    call use this one rate. *)
Theorem learning_ratio_uses_updated_count (self self' : node) (X y : vec)
    (weight : float64) (rht : HoeffdingTreeRegressor) (h h' : heap) :
  learn_from_instance self X y weight rht h = Ok (self', h') ->
  exists (n : Z) (self1 self3 : node) (h1 : heap) (count : float64),
    py_int weight = Ok n /\
    initialize_weights self X y h = Ok (self1, h1) /\
    count = match stats_0 (_stats self) with
            | Some c => fadd c weight
            | None => weight
            end /\
    total_weight self' = Ok count /\
    let learning_ratio :=
      if learning_ratio_const rht then learning_ratio_perceptron rht
      else fdiv (learning_ratio_perceptron rht)
                (fadd f1 (fmul count (learning_ratio_decay rht))) in
    gradient_steps (Z.to_nat n) X y learning_ratio rht
      (set_stats self1 (_stats self'), h1) = Ok (self3, h') /\
    self' = update_observers self3 X y weight rht.
Proof.
  intros H.
  destruct (learn_from_instance_py_int _ _ _ _ _ _ _ _ H) as [n Hn].
  rewrite (learn_from_instance_steps _ _ _ _ _ _ _ Hn) in H.
  pose proof (learn_with_steps_stats _ _ _ _ _ _ _ _ _ H) as Hst.
  destruct (observe_count _ _ _ _ Hst) as [Hc Hne].
  unfold learn_with_steps in H.
  destruct (initialize_weights self X y h) as [[self1 h1]|] eqn:Hi;
    simpl in H; [|discriminate].
  rewrite (initialize_weights_stats _ _ _ _ _ _ Hi), Hst in H. simpl in H.
  destruct (gradient_steps _ X y _ rht _) as [[self3 h3]|] eqn:Hg; simpl in H;
    [|discriminate].
  injection H as <- <-.
  exists n, self1, self3, h1, (new_count (_stats self) weight).
  split; [exact Hn|]. split; [reflexivity|]. split; [reflexivity|].
  split.
  - apply total_weight_counted; assumption.
  - cbv zeta. split; [|reflexivity].
    exact Hg.
Qed.

Lemma learning_ratio_uses_updated_count_witness :
  exists (self' : node) (h' : heap),
    learn_from_instance (sample_node InactivePerceptronMultiTarget)
      [Fin 3] [Fin 3] (Fin 2) unit_rht sample_heap = Ok (self', h')
    /\ total_weight self' = Ok (Fin 3)
    /\ exists (self1 self3 : node) (h1 : heap),
         gradient_steps 2 [Fin 3] [Fin 3] (Fin (20 # 1003)) unit_rht
           (set_stats self1 (_stats self'), h1) = Ok (self3, h').
Proof.
  assert (R : exists s, learn_from_instance (sample_node InactivePerceptronMultiTarget)
                [Fin 3] [Fin 3] (Fin 2) unit_rht sample_heap = Ok s).
  { eexists. vm_compute. reflexivity. }
  destruct R as [[self' h'] R]. exists self', h'. split; [exact R|].
  destruct (learning_ratio_uses_updated_count _ _ _ _ _ _ _ _ R)
    as (n & self1 & self3 & h1 & count & Hn & Hi & Hc & Ht & Hg & Hs).
  injection Hn as <-. simpl in Hc. subst count.
  split; [exact Ht|].
  exists self1, self3, h1. exact Hg.
Defined.
Lemma initialize_weights_None (self : node) X y (h : heap) :
  perceptron_weight self = None ->
  let U := (uniform (random_state self) (length y) (length X + 1)).1 in
  let rs := (uniform (random_state self) (length y) (length X + 1)).2 in
  let l := fresh (dom h) in
  initialize_weights self X y h =
  Ok (set_random_state (set_perceptron_weight self (Some l)) rs,
      <[l := normalize_rows U]> h).
Proof.
  intros Hw. cbv zeta. unfold initialize_weights. rewrite Hw.
  destruct (uniform _ _ _) as [U rs]. unfold alloc. simpl.
  unfold normalize_perceptron_weights,
    ActiveLearningNodePerceptronMultiTarget.normalize_perceptron_weights,
    InactiveLearningNodePerceptronMultiTarget.normalize_perceptron_weights, read.
  simpl. destruct (is_active (class_of self)); rewrite lookup_insert_eq; simpl;
    rewrite insert_insert_eq; reflexivity.
Qed.

Lemma initialize_weights_Some (self : node) X y (h : heap) (l : loc) :
  perceptron_weight self = Some l -> initialize_weights self X y h = Ok (self, h).
Proof. intros Hw. unfold initialize_weights. rewrite Hw. reflexivity. Qed.

(** ** Division by a zero sum *)

Lemma Qsum_abs_zero (qs : list Q) :
  Qsum_abs qs == 0 -> Forall (fun q => q == 0) qs.
Proof.
  unfold Qsum_abs. induction qs as [|q qs IH]; simpl; intros H; constructor.
  - pose proof (Qabs_nonneg q). pose proof (Qsum_abs_nonneg qs) as Hs.
    unfold Qsum_abs in Hs.
    assert (Hq : Qabs q == 0) by lra.
    revert Hq. apply Qabs_case; intros; lra.
  - apply IH. pose proof (Qabs_nonneg q). pose proof (Qsum_abs_nonneg qs) as Hs.
    unfold Qsum_abs in Hs. lra.
Qed.

(** A row whose absolute-value sum is exactly zero is divided by zero: each
    of its entries becomes 0/0, that is NaN. *)
Lemma divide_row_zero (row : vec) :
  feq (l1_norm row) f0 -> divide_row row = map (fun _ => NaN) row.
Proof.
  intros H. destruct (l1_norm row) as [s| |] eqn:Hl; simpl in H; try contradiction.
  destruct (l1_norm_finite row s Hl) as (qs & -> & Hs).
  rewrite Hs in H. apply Qsum_abs_zero in H.
  unfold divide_row, np_div_scalar. rewrite Hl, !map_map.
  assert (Hz : Qis_zero s = true) by (apply Qis_zero_true; rewrite Hs; clear -H;
    induction H as [|q qs Hq _ IH]; unfold Qsum_abs in *; simpl;
      [reflexivity | rewrite Hq, IH; reflexivity]).
  clear Hl Hs. induction H as [|q qs Hq _ IH]; simpl; [reflexivity|].
  unfold fdiv at 1. rewrite Hz. apply Qis_zero_true in Hq. rewrite Hq.
  f_equal. exact IH.
Qed.
(** C2 at a sample input: the array has a row of zeros, and the
    normalization does not leave it as it was; it divides by the zero sum
    and stores NaN in every entry of the row. *)
Lemma normalize_perceptron_weights_zero_row :
  normalize_perceptron_weights (sample_node ActivePerceptronMultiTarget) zero_row_heap
  = Ok {[ 1%positive := [[NaN; NaN]; [Fin (1 # 4); Fin (-3 # 4)]] ]}
  /\ ~ zero_rows_kept [[Fin 0; Fin 0]; [Fin 1; Fin (-3)]]
                      [[NaN; NaN]; [Fin (1 # 4); Fin (-3 # 4)]].
Proof.
  split.
  - vm_compute. reflexivity.
  - intros H. specialize (H 0%nat [Fin 0; Fin 0] eq_refl).
    assert (E : feq (l1_norm [Fin 0; Fin 0]) f0) by (vm_compute; reflexivity).
    specialize (H E). discriminate H.
Qed.

(** C2, amended.  [normalize_perceptron_weights], in the two classes that
    define it, divides every row by its absolute-value sum, whatever the
    sum, and raises nothing; a row whose sum is exactly zero is not kept:
    every entry of it becomes NaN. *)
Theorem normalize_perceptron_weights_divides_every_row (self : node) (h : heap)
    (l : loc) (W : matrix) :
  perceptron_weight self = Some l ->
  h !! l = Some W ->
  let W' := map (fun row => np_div_scalar row (np_sum (np_abs row))) W in
  ActiveLearningNodePerceptronMultiTarget.normalize_perceptron_weights self h
    = Ok (<[l := W']> h)
  /\ InactiveLearningNodePerceptronMultiTarget.normalize_perceptron_weights self h
    = Ok (<[l := W']> h)
  /\ normalize_perceptron_weights self h = Ok (<[l := W']> h)
  /\ forall row, row ∈ W -> feq (np_sum (np_abs row)) f0 ->
       np_div_scalar row (np_sum (np_abs row)) = map (fun _ => NaN) row.
Proof.
  intros Hw Hh W'.
  assert (HA : ActiveLearningNodePerceptronMultiTarget.normalize_perceptron_weights
                 self h = Ok (<[l := W']> h)).
  { unfold ActiveLearningNodePerceptronMultiTarget.normalize_perceptron_weights, read.
    rewrite Hw, Hh. simpl. rewrite normalize_rows_map. reflexivity. }
  assert (HI : InactiveLearningNodePerceptronMultiTarget.normalize_perceptron_weights
                 self h = Ok (<[l := W']> h)).
  { unfold InactiveLearningNodePerceptronMultiTarget.normalize_perceptron_weights, read.
    rewrite Hw, Hh. simpl. rewrite normalize_rows_map. reflexivity. }
  repeat split; try assumption.
  - unfold normalize_perceptron_weights. destruct (is_active _); assumption.
  - intros row _ Hz. apply (divide_row_zero row Hz).
Qed.

Lemma normalize_perceptron_weights_divides_every_row_witness :
  normalize_perceptron_weights (sample_node InactiveAdaptiveMultiTarget) zero_row_heap
  = Ok (<[1%positive := [[NaN; NaN]; [Fin (1 # 4); Fin (-3 # 4)]]]> zero_row_heap).
Proof.
  exact (proj1 (proj2 (proj2
    (normalize_perceptron_weights_divides_every_row
       (sample_node InactiveAdaptiveMultiTarget) zero_row_heap 1%positive
       [[Fin 0; Fin 0]; [Fin 1; Fin (-3)]] eq_refl eq_refl)))).
Defined.
(** ** Faded errors *)



















(** ** The total weight *)







(** ** Active and inactive nodes *)

Lemma initialize_weights_with_class (self : node) (cls : node_class) X y (h : heap) :
  initialize_weights (with_class self cls) X y h =
  rmap (fun r => (with_class r.1 cls, r.2)) (initialize_weights self X y h).
Proof.
  destruct (perceptron_weight self) as [l|] eqn:Hw.
  - rewrite (initialize_weights_Some _ _ _ _ l), (initialize_weights_Some _ _ _ _ l)
      by assumption. reflexivity.
  - rewrite (initialize_weights_None (with_class self cls)),
      (initialize_weights_None self) by assumption. reflexivity.
Qed.

Lemma update_weights_with_class (self : node) (cls : node_class) X y lr rht (h : heap) :
  is_adaptive cls = is_adaptive (class_of self) ->
  update_weights (with_class self cls) X y lr rht h =
  rmap (fun r => (with_class r.1 cls, r.2)) (update_weights self X y lr rht h).
Proof.
  intros Ha. rewrite !update_weights_eq.
  unfold update_weights_spec, raw_update, predict,
    ActiveLearningNodePerceptronMultiTarget.predict,
    InactiveLearningNodePerceptronMultiTarget.predict, update_faded_errors.
  destruct self as [c st obs w rs fm fp]; simpl in *. rewrite Ha.
  assert (P : forall (b : bool) (A : Type) (x : A), (if b then x else x) = x)
    by (intros []; reflexivity).
  rewrite !P.
  destruct w as [l|]; simpl; [|reflexivity].
  destruct (read h l) as [W|]; simpl; [|reflexivity].
  destruct (matmul W _) as [p|]; simpl; [|reflexivity].
  destruct (np_zip fsub _ p) as [d|]; simpl; [|reflexivity].
  destruct (np_iadd W _) as [raw|]; simpl; [|reflexivity].
  destruct (is_adaptive c); simpl; [|reflexivity].
  destruct (faded_update fp _); simpl; [|reflexivity].
  destruct (stats_1 st); simpl; [|reflexivity].
  destruct (stats_0 st); simpl; [|reflexivity].
  destruct (np_zip fsub _ _); simpl; [|reflexivity].
  destruct (faded_update fm _); simpl; reflexivity.
Qed.

Lemma gradient_steps_with_class (n : nat) (self : node) (cls : node_class)
    X y lr rht (h : heap) :
  is_adaptive cls = is_adaptive (class_of self) ->
  gradient_steps n X y lr rht (with_class self cls, h) =
  rmap (fun r => (with_class r.1 cls, r.2)) (gradient_steps n X y lr rht (self, h)).
Proof.
  unfold gradient_steps. revert self h.
  induction n as [|n IH]; intros self h Ha; simpl.
  - reflexivity.
  - rewrite update_weights_with_class by assumption.
    destruct (update_weights self X y lr rht h) as [[s1 h1]|] eqn:E; simpl;
      [|reflexivity].
    apply IH. apply update_weights_frame in E. rewrite E. exact Ha.
Qed.
Lemma learn_from_instance_raise (self : node) X y weight rht (h : heap) (e : exn) :
  py_int weight = Raise e ->
  learn_from_instance self X y weight rht h =
  let? (self1, h1) := initialize_weights self X y h in
  let? _ := observe (_stats self1) y weight in
  Raise e.
Proof.
  intros Hn. unfold learn_from_instance.
  destruct (is_active (class_of self)) eqn:Hact;
    [unfold ActiveLearningNodePerceptronMultiTarget.learn_from_instance
    |unfold InactiveLearningNodePerceptronMultiTarget.learn_from_instance];
    (apply rbind_ext;
     [ unfold initialize_weights, normalize_perceptron_weights;
       destruct (perceptron_weight self); [reflexivity|];
       destruct (uniform _ _ _) as [W rs]; destruct (alloc h W) as [l h0]; simpl;
       rewrite Hact; reflexivity
     | intros [self1 h1] _; rewrite Hn; unfold observe;
       destruct (_stats self1) as [s0 [s1|] s2]; simpl; [|reflexivity];
       destruct (broadcast_to (length s1) _); simpl; [|reflexivity];
       destruct s2 as [s2|]; simpl; [|reflexivity];
       destruct (broadcast_to (length s2) _); simpl; reflexivity ]).
Qed.

Lemma initialize_weights_observers (self self1 : node) X y (h h1 : heap) :
  initialize_weights self X y h = Ok (self1, h1) ->
  _attribute_observers self1 = _attribute_observers self.
Proof.
  unfold initialize_weights. destruct (perceptron_weight self).
  - intros [= <- _]. reflexivity.
  - destruct (uniform _ _ _) as [W rs]. destruct (alloc h W) as [l h0].
    destruct (normalize_perceptron_weights _ h0); simpl; [|discriminate].
    intros [= <- _]. reflexivity.
Qed.

Lemma is_active_inactive_class (c : node_class) : is_active (inactive_class c) = false.
Proof. destruct c; reflexivity. Qed.

Lemma is_active_active_class (c : node_class) : is_active (active_class c) = true.
Proof. destruct c; reflexivity. Qed.

Lemma is_adaptive_inactive_class (c : node_class) :
  is_adaptive (inactive_class c) = is_adaptive c.
Proof. destruct c; reflexivity. Qed.

Lemma is_adaptive_active_class (c : node_class) :
  is_adaptive (active_class c) = is_adaptive c.
Proof. destruct c; reflexivity. Qed.

Lemma learn_with_steps_inactive (n : nat) (self : node) X y weight rht (h : heap) :
  learn_with_steps n (with_class self (inactive_class (class_of self)))
    X y weight rht h =
  rmap (as_inactive (class_of self) (_attribute_observers self))
       (learn_with_steps n (with_class self (active_class (class_of self)))
          X y weight rht h).
Proof.
  unfold learn_with_steps. rewrite !initialize_weights_with_class.
  destruct (initialize_weights self X y h) as [[self1 h1]|] eqn:Hi; simpl;
    [|reflexivity].
  destruct (observe (_stats self1) y weight) as [st|]; simpl; [|reflexivity].
  pose proof (initialize_weights_class _ _ _ _ _ _ Hi) as Hc.
  pose proof (initialize_weights_observers _ _ _ _ _ _ Hi) as Ho.
  change (set_stats (with_class self1 ?c) st) with (with_class (set_stats self1 st) c).
  rewrite !gradient_steps_with_class
    by (simpl; rewrite ?is_adaptive_inactive_class, ?is_adaptive_active_class;
        congruence).
  destruct (gradient_steps n X y _ rht (set_stats self1 st, h1))
    as [[self3 h3]|] eqn:Hg; simpl; [|reflexivity].
  apply gradient_steps_frame in Hg.
  unfold update_observers, as_inactive. simpl.
  rewrite is_active_inactive_class, is_active_active_class. simpl.
  f_equal. f_equal. rewrite Hg. unfold with_class. simpl. rewrite Ho. reflexivity.
Qed.

(** C8. An inactive node and the active node of the same predictor kind
    in the same state, given the same instance: both raise the same
    exception, or both return, and then the inactive node has the
    statistics, the weights (the store is the same), the generator and the
    faded errors of the active one; its observers are those it had before
    the call. *)
Theorem inactive_learns_as_active_without_observers (self : node) (X y : vec)
    (weight : float64) (rht : HoeffdingTreeRegressor) (h : heap) :
  let inactive := with_class self (inactive_class (class_of self)) in
  let active := with_class self (active_class (class_of self)) in
  learn_from_instance inactive X y weight rht h
  = rmap (as_inactive (class_of self) (_attribute_observers self))
         (learn_from_instance active X y weight rht h)
  /\ forall self' h',
       learn_from_instance inactive X y weight rht h = Ok (self', h') ->
       _attribute_observers self' = _attribute_observers self.
Proof.
  cbv zeta.
  assert (E : learn_from_instance
                (with_class self (inactive_class (class_of self))) X y weight rht h
              = rmap (as_inactive (class_of self) (_attribute_observers self))
                  (learn_from_instance
                     (with_class self (active_class (class_of self)))
                     X y weight rht h)).
  { destruct (py_int weight) as [n|e] eqn:Hn.
    - rewrite !(learn_from_instance_steps _ _ _ _ _ _ _ Hn).
      apply learn_with_steps_inactive.
    - rewrite !(learn_from_instance_raise _ _ _ _ _ _ _ Hn).
      rewrite !initialize_weights_with_class.
      destruct (initialize_weights self X y h) as [[self1 h1]|]; simpl;
        [|reflexivity].
      destruct (observe (_stats self1) y weight); reflexivity. }
  split; [exact E|].
  intros self' h' H. rewrite E in H. clear E.
  destruct (learn_from_instance (with_class self (active_class _)) X y weight rht h)
    as [[a ha]|]; simpl in H; [|discriminate].
  injection H as <- _. reflexivity.
Qed.
(** ** Prediction and construction *)

Lemma predict_eq (self : node) (X : vec) (h : heap) :
  predict self X h =
  match perceptron_weight self with
  | None => Raise ValueError
  | Some l => let? W := read h l in matmul W X
  end.
Proof.
  unfold predict, ActiveLearningNodePerceptronMultiTarget.predict,
    InactiveLearningNodePerceptronMultiTarget.predict.
  destruct (is_active _); reflexivity.
Qed.

Lemma matmul_shape (W : matrix) (X : vec) :
  Forall (fun row => length row = length X) W ->
  matmul W X = Ok (map (fun row => dot row X) W).
Proof.
  intros H. unfold matmul.
  replace (forallb _ W) with true; [reflexivity|].
  symmetry. apply forallb_forall. intros row Hin.
  apply Nat.eqb_eq. rewrite List.Forall_forall in H. apply H, Hin.
Qed.

Lemma new_node_without_parent (cls : node_class) (initial_stats : stats)
    (rs : RandomState) (h : heap) :
  exists self, new_node cls initial_stats None rs h = Ok (self, h) /\
               perceptron_weight self = None /\
               _stats self = initial_stats /\ class_of self = cls.
Proof.
  destruct cls; simpl; eexists; (split; [reflexivity|]); repeat split.
Qed.

Lemma update_weights_heap (self self' : node) X y lr rht (h h' : heap) :
  update_weights self X y lr rht h = Ok (self', h') ->
  exists l W, perceptron_weight self = Some l /\ h' = <[l := W]> h.
Proof.
  rewrite update_weights_eq. unfold update_weights_spec. intros H.
  destruct (raw_update self X y lr rht h) as [raw|]; simpl in H; [|discriminate].
  destruct (perceptron_weight self) as [l|]; [|discriminate].
  exists l, (normalize_rows raw). split; [reflexivity|].
  destruct (is_adaptive (class_of self)).
  - destruct (predict self _ h); simpl in H; [|discriminate].
    destruct (update_faded_errors self rht _ _); simpl in H; [|discriminate].
    now injection H as _ <-.
  - now injection H as _ <-.
Qed.

(** The gradient steps write the array of the node and no other. *)
Lemma gradient_steps_heap (n : nat) X y lr rht (self self' : node) (h h' : heap)
    (l : loc) :
  perceptron_weight self = Some l ->
  gradient_steps n X y lr rht (self, h) = Ok (self', h') ->
  (is_Some (h !! l) -> is_Some (h' !! l)) /\
  forall l', l' <> l -> h' !! l' = h !! l'.
Proof.
  unfold gradient_steps. revert self h.
  induction n as [|n IH]; intros self h Hw H; simpl in H.
  - injection H as _ <-. split; auto.
  - destruct (update_weights self X y lr rht h) as [[s1 h1]|] eqn:E;
      simpl in H; [|discriminate].
    pose proof (update_weights_frame _ _ _ _ _ _ _ _ E) as Hf.
    destruct (update_weights_heap _ _ _ _ _ _ _ _ E) as (l0 & W & Hl0 & ->).
    assert (l0 = l) by congruence. subst l0.
    destruct (IH s1 _ ltac:(rewrite Hf; exact Hw) H) as [IH1 IH2].
    split.
    + intros _. apply IH1. rewrite lookup_insert_eq. eauto.
    + intros l' Hl'. rewrite IH2 by assumption.
      apply lookup_insert_ne. congruence.
Qed.
Lemma learn_initializes_weights (self self' : node) X y weight rht (h h' : heap) :
  perceptron_weight self = None ->
  learn_from_instance self X y weight rht h = Ok (self', h') ->
  exists l W, perceptron_weight self' = Some l /\ h' !! l = Some W.
Proof.
  intros Hw H.
  destruct (learn_from_instance_py_int _ _ _ _ _ _ _ _ H) as [n Hn].
  rewrite (learn_from_instance_steps _ _ _ _ _ _ _ Hn) in H.
  unfold learn_with_steps in H.
  pose proof (initialize_weights_None self X y h Hw) as Hi. cbv zeta in Hi.
  rewrite Hi in H. simpl in H.
  destruct (observe (_stats self) y weight) as [st|]; simpl in H; [|discriminate].
  destruct (gradient_steps _ X y _ rht _) as [[self3 h3]|] eqn:Hg; simpl in H;
    [|discriminate].
  injection H as <- <-.
  pose proof (gradient_steps_frame _ _ _ _ _ _ _ _ _ Hg) as Hf.
  pose proof (fun E => gradient_steps_heap _ _ _ _ _ _ _ _ _ (fresh (dom h)) E Hg)
    as Hh.
  destruct (Hh eq_refl) as [Hs _].
  destruct Hs as [W HW]; [rewrite lookup_insert_eq; eauto|].
  exists (fresh (dom h)), W. split; [|exact HW].
  unfold update_observers. rewrite Hf.
  destruct (is_active _); reflexivity.
Qed.

(** C9. [predict] on a node whose weights are not initialized, as the
    constructor leaves them without a parent, raises an exception (the
    [ValueError] of [np.matmul] on [None]) and returns no vector.  Once the
    weights are initialized, which the first call of [learn_from_instance]
    does, [predict] returns the product of the weight matrix and the
    vector: the dot product of every row with it, when the row lengths are
    the length of the vector. *)
Theorem predict_raises_until_weights_initialized :
  (forall (cls : node_class) (initial_stats : stats) (rs : RandomState)
          (h h0 : heap) (self : node) (X : vec),
      new_node cls initial_stats None rs h = Ok (self, h0) ->
      predict self X h0 = Raise ValueError)
  /\
  (forall (self : node) (X : vec) (h : heap),
      perceptron_weight self = None -> predict self X h = Raise ValueError)
  /\
  (forall (self self' : node) (X y : vec) (weight : float64)
          (rht : HoeffdingTreeRegressor) (h h' : heap),
      perceptron_weight self = None ->
      learn_from_instance self X y weight rht h = Ok (self', h') ->
      exists l W, perceptron_weight self' = Some l /\ h' !! l = Some W)
  /\
  (forall (self : node) (X : vec) (h : heap) (l : loc) (W : matrix),
      perceptron_weight self = Some l ->
      h !! l = Some W ->
      predict self X h = matmul W X /\
      (Forall (fun row => length row = length X) W ->
       predict self X h = Ok (map (fun row => np_sum (zip_with fmul row X)) W))).
Proof.
  split; [|split; [|split]].
  - intros cls st rs h h0 self X H.
    destruct (new_node_without_parent cls st rs h) as (s & Hs & Hw & _).
    rewrite Hs in H. injection H as <- <-.
    rewrite predict_eq, Hw. reflexivity.
  - intros self X h Hw. rewrite predict_eq, Hw. reflexivity.
  - intros self self' X y weight rht h h' Hw H.
    exact (learn_initializes_weights _ _ _ _ _ _ _ _ Hw H).
  - intros self X h l W Hw Hh.
    assert (E : predict self X h = matmul W X).
    { rewrite predict_eq, Hw. unfold read. rewrite Hh. reflexivity. }
    split; [exact E|]. intros Hs. rewrite E. apply matmul_shape, Hs.
Qed.

Lemma predict_raises_until_weights_initialized_witness :
  predict (fresh_node ActivePerceptronMultiTarget) [f1; f1] ∅ = Raise ValueError
  /\ predict (sample_node ActivePerceptronMultiTarget) [Fin 3; Fin 5] sample_heap
     = Ok [Fin 4].
Proof.
  split.
  - exact (proj1 (proj2 predict_raises_until_weights_initialized)
             (fresh_node ActivePerceptronMultiTarget) [f1; f1] ∅ eq_refl).
  - exact (proj2 (proj2 (proj2 (proj2 predict_raises_until_weights_initialized))
                    (sample_node ActivePerceptronMultiTarget) [Fin 3; Fin 5]
                    sample_heap 1%positive [[Fin (1 # 2); Fin (1 # 2)]]
                    eq_refl eq_refl)
             ltac:(repeat constructor)).
Defined.

(** C10. With a parent that is a node of one of the four classes, the
    constructor of each of the four classes raises [AttributeError]: it
    reads [parent_node.perceptron_weights], and the attribute of a node is
    [perceptron_weight].  No node and no copy is made. *)
Theorem new_node_with_node_parent_raises (cls : node_class) (initial_stats : stats)
    (parent : node) (rs : RandomState) (h : heap) :
  new_node cls initial_stats (Some (NodeObject parent)) rs h = Raise AttributeError.
Proof.
  assert (G : getattr (NodeObject parent) "perceptron_weights" = Raise AttributeError).
  { unfold getattr, array_attributes. rewrite lookup_singleton_ne; [reflexivity|].
    discriminate. }
  destruct cls; simpl;
    unfold ActiveLearningNodeAdaptiveMultiTarget.__init__,
           InactiveLearningNodeAdaptiveMultiTarget.__init__,
           ActiveLearningNodePerceptronMultiTarget.__init__,
           InactiveLearningNodePerceptronMultiTarget.__init__;
    rewrite G; reflexivity.
Qed.
(** ** Inheriting the weights of a parent *)

(** The active classes copy the array of the parent: the child owns a new
    array, and its learning leaves the array of the parent as it was. *)
Lemma active_child_owns_a_copy (cls : node_class) (initial_stats : stats)
    (parent : pyobject) (rs : RandomState) (h h1 : heap) (child : node)
    (l : loc) (W : matrix) :
  is_active cls = true ->
  getattr parent "perceptron_weights" = Ok (Some l) ->
  h !! l = Some W ->
  new_node cls initial_stats (Some parent) rs h = Ok (child, h1) ->
  exists l', perceptron_weight child = Some l' /\ l' <> l /\
             h1 !! l' = Some W /\ h1 !! l = Some W /\
             forall X y weight rht child' h2,
               learn_from_instance child X y weight rht h1 = Ok (child', h2) ->
               h2 !! l = Some W.
Proof.
  intros Ha Hg Hl H.
  assert (Hfresh : fresh (dom h) <> l).
  { intros E. apply (is_fresh (dom h)). rewrite E. apply elem_of_dom. eauto. }
  assert (Hc : perceptron_weight child = Some (fresh (dom h)) /\
               h1 = <[fresh (dom h) := W]> h).
  { destruct cls; try discriminate; simpl in H;
      unfold ActiveLearningNodeAdaptiveMultiTarget.__init__,
             ActiveLearningNodePerceptronMultiTarget.__init__,
             deepcopy, read, alloc in H;
      rewrite Hg in H; simpl in H; rewrite Hl in H; simpl in H;
      injection H as <- <-; split; reflexivity. }
  destruct Hc as [Hw ->].
  exists (fresh (dom h)). split; [exact Hw|]. split; [exact Hfresh|].
  split; [apply lookup_insert_eq|].
  split; [rewrite lookup_insert_ne by exact Hfresh; exact Hl|].
  intros X y weight rht child' h2 H2.
  destruct (learn_from_instance_py_int _ _ _ _ _ _ _ _ H2) as [n Hn].
  rewrite (learn_from_instance_steps _ _ _ _ _ _ _ Hn) in H2.
  unfold learn_with_steps in H2.
  rewrite (initialize_weights_Some _ _ _ _ _ Hw) in H2. simpl in H2.
  destruct (observe (_stats child) y weight) as [st|]; simpl in H2; [|discriminate].
  destruct (gradient_steps _ X y _ rht _) as [[self3 h3]|] eqn:Hgs; simpl in H2;
    [|discriminate].
  injection H2 as _ <-.
  pose proof (fun E => gradient_steps_heap _ _ _ _ _ _ _ _ _ (fresh (dom h)) E Hgs)
    as Hh.
  destruct (Hh Hw) as [_ Hother].
  rewrite Hother by congruence.
  rewrite lookup_insert_ne by exact Hfresh. exact Hl.
Qed.

(** The inactive classes store the parent's reference: the child and the
    parent hold one array. *)
Lemma inactive_child_holds_parent_array (cls : node_class) (initial_stats : stats)
    (parent : pyobject) (rs : RandomState) (h h1 : heap) (child : node) :
  is_active cls = false ->
  new_node cls initial_stats (Some parent) rs h = Ok (child, h1) ->
  getattr parent "perceptron_weights" = Ok (perceptron_weight child) /\ h1 = h.
Proof.
  intros Ha H.
  destruct cls; try discriminate; simpl in H;
    unfold InactiveLearningNodeAdaptiveMultiTarget.__init__,
           InactiveLearningNodePerceptronMultiTarget.__init__ in H;
    destruct (getattr parent "perceptron_weights") as [w|]; simpl in H;
      try discriminate;
    injection H as <- <-; split; reflexivity.
Qed.

(** C7, at a failing input: a child of an inactive class built from a
    parent whose [perceptron_weights] is the array at location 1 holds that
    very array, and one instance learned by the child changes it, hence
    the weights of the parent. *)
Theorem inactive_child_learning_changes_parent_weights :
  exists (child child' : node) (h' : heap),
    new_node InactivePerceptronMultiTarget empty_stats (Some parent_with_weights)
      sample_random_state sample_heap = Ok (child, sample_heap)
    /\ getattr parent_with_weights "perceptron_weights" = Ok (Some 1%positive)
    /\ perceptron_weight child = Some 1%positive
    /\ sample_heap !! 1%positive = Some [[Fin (1 # 2); Fin (1 # 2)]]
    /\ learn_from_instance child [Fin 3] [Fin 3] f1 unit_rht sample_heap
       = Ok (child', h')
    /\ h' !! 1%positive = Some [[Fin (1121 # 2162); Fin (1041 # 2162)]].
Proof.
  eexists _, _, _.
  split; [vm_compute; reflexivity|].
  split; [vm_compute; reflexivity|].
  split; [reflexivity|].
  split; [vm_compute; reflexivity|].
  split; [vm_compute; reflexivity|].
  vm_compute. reflexivity.
Qed.
(** ** The normalization as an invariant of the node *)











(** * Further properties *)

(** ** The observers of an active node *)

Lemma observe_features_lookup (rht : HoeffdingTreeRegressor) (X y : vec)
    (weight : float64) (i : nat) (observers : gmap nat observer) (j : nat) :
  observe_features rht i X y weight observers !! j =
  if decide (i <= j)%nat
  then match X !! (j - i)%nat with
       | Some x => Some (observer_update (observer_before rht observers j) x y weight)
       | None => observers !! j
       end
  else observers !! j.
Proof.
  revert i observers. induction X as [|x X IH]; intros i observers; simpl.
  - destruct (decide _); [|reflexivity]. destruct (j - i)%nat; reflexivity.
  - assert (E : (let '(obs, observers0) :=
                   match observers !! i with
                   | Some obs => (obs, observers)
                   | None =>
                       (match nominal_attributes rht with
                        | Some nominal =>
                            if bool_decide (i ∈ nominal)
                            then new_observer NominalAttributeRegressionObserver
                            else new_observer NumericAttributeRegressionObserver
                        | None => new_observer NumericAttributeRegressionObserver
                        end,
                        <[i := match nominal_attributes rht with
                               | Some nominal =>
                                   if bool_decide (i ∈ nominal)
                                   then new_observer NominalAttributeRegressionObserver
                                   else new_observer NumericAttributeRegressionObserver
                               | None => new_observer NumericAttributeRegressionObserver
                               end]> observers)
                   end in
                 observe_features rht (S i) X y weight
                   (<[i := observer_update obs x y weight]> observers0))
                = observe_features rht (S i) X y weight
                    (<[i := observer_update (observer_before rht observers i) x y weight]>
                       observers)).
    { unfold observer_before, feature_observer_class.
      destruct (observers !! i) as [obs|]; [reflexivity|].
      rewrite insert_insert_eq.
      destruct (nominal_attributes rht) as [nominal|]; [|reflexivity].
      destruct (bool_decide _); reflexivity. }
    rewrite E, IH. clear E IH.
    destruct (decide (S i <= j)%nat) as [H|H].
    + rewrite decide_True by lia.
      replace (j - i)%nat with (S (j - S i)) by lia. simpl.
      assert (Hne : i <> j) by lia.
      unfold observer_before. rewrite !lookup_insert_ne by exact Hne. reflexivity.
    + destruct (decide (i <= j)%nat) as [H'|H'].
      * assert (j = i) by lia. subst j.
        rewrite Nat.sub_diag. simpl. apply lookup_insert_eq.
      * apply lookup_insert_ne. lia.
Qed.
Lemma learn_from_instance_observers (self self' : node) X y weight rht (h h' : heap) :
  learn_from_instance self X y weight rht h = Ok (self', h') ->
  _attribute_observers self' =
  if is_active (class_of self)
  then observe_features rht 0 X y weight (_attribute_observers self)
  else _attribute_observers self.
Proof.
  intros H.
  destruct (learn_from_instance_py_int _ _ _ _ _ _ _ _ H) as [n Hn].
  rewrite (learn_from_instance_steps _ _ _ _ _ _ _ Hn) in H.
  unfold learn_with_steps in H.
  destruct (initialize_weights self X y h) as [[self1 h1]|] eqn:Hi;
    simpl in H; [|discriminate].
  destruct (observe (_stats self1) y weight) as [st|]; simpl in H; [|discriminate].
  destruct (gradient_steps _ X y _ rht _) as [[self3 h3]|] eqn:Hg; simpl in H;
    [|discriminate].
  injection H as <- _.
  pose proof (initialize_weights_class _ _ _ _ _ _ Hi) as Hc.
  pose proof (initialize_weights_observers _ _ _ _ _ _ Hi) as Ho.
  apply gradient_steps_frame in Hg.
  unfold update_observers. rewrite Hg. simpl. rewrite Hc.
  destruct (is_active (class_of self)); simpl; rewrite Ho; reflexivity.
Qed.

(** X1. A successful [learn_from_instance] on an active node leaves, for
    every feature index [i] of the instance, an observer that is the one the
    node held for [i] (a new one, nominal or numeric as the regressor
    declares the feature, when it held none) with the one update
    [(X[i], y, weight)] added; the observers of the other indices are
    untouched. *)
Theorem active_learn_updates_each_feature_observer (self self' : node) (X y : vec)
    (weight : float64) (rht : HoeffdingTreeRegressor) (h h' : heap) :
  is_active (class_of self) = true ->
  learn_from_instance self X y weight rht h = Ok (self', h') ->
  (forall (i : nat) (x : float64),
      X !! i = Some x ->
      _attribute_observers self' !! i =
      Some (observer_update (observer_before rht (_attribute_observers self) i)
              x y weight))
  /\ (forall i : nat,
         (length X <= i)%nat ->
         _attribute_observers self' !! i = _attribute_observers self !! i).
Proof.
  intros Ha H. rewrite (learn_from_instance_observers _ _ _ _ _ _ _ _ H), Ha.
  split.
  - intros i x Hx. rewrite observe_features_lookup.
    rewrite decide_True by lia. rewrite Nat.sub_0_r, Hx. reflexivity.
  - intros i Hi. rewrite observe_features_lookup.
    rewrite decide_True by lia. rewrite Nat.sub_0_r.
    rewrite (lookup_ge_None_2 X i Hi). reflexivity.
Qed.

Lemma active_learn_updates_each_feature_observer_witness :
  exists (self' : node) (h' : heap),
    learn_from_instance (fresh_node ActivePerceptronMultiTarget)
      [Fin 1; Fin 2] [Fin 3] f1
      nominal_rht ∅ = Ok (self', h')
    /\ _attribute_observers self' !! 0%nat
       = Some (mk_observer NumericAttributeRegressionObserver
                 [(Fin 1, [Fin 3], f1)])
    /\ _attribute_observers self' !! 1%nat
       = Some (mk_observer NominalAttributeRegressionObserver
                 [(Fin 2, [Fin 3], f1)])
    /\ _attribute_observers self' !! 2%nat = None.
Proof.
  assert (R : exists s, learn_from_instance (fresh_node ActivePerceptronMultiTarget)
                [Fin 1; Fin 2] [Fin 3] f1
                nominal_rht ∅ = Ok s).
  { eexists. vm_compute. reflexivity. }
  destruct R as [[self' h'] R]. exists self', h'. split; [exact R|].
  destruct (active_learn_updates_each_feature_observer
              (fresh_node ActivePerceptronMultiTarget) self' [Fin 1; Fin 2]
              [Fin 3] f1 nominal_rht ∅ h' eq_refl R) as [Hin Hout].
  split; [exact (Hin 0%nat (Fin 1) eq_refl)|].
  split; [exact (Hin 1%nat (Fin 2) eq_refl)|].
  exact (Hout 2%nat (le_n 2)).
Defined.

(** ** What a call of [learn_from_instance] touches *)

Lemma initialize_weights_total (self : node) X y (h : heap) :
  exists self1 h1, initialize_weights self X y h = Ok (self1, h1).
Proof.
  destruct (perceptron_weight self) as [l|] eqn:Hw.
  - rewrite (initialize_weights_Some _ _ _ _ _ Hw). eauto.
  - rewrite (initialize_weights_None _ _ _ _ Hw). eauto.
Qed.

Lemma fresh_not_in_heap (h : heap) : h !! fresh (dom h) = None.
Proof. apply not_elem_of_dom, is_fresh. Qed.

(** X2. A successful [learn_from_instance] leaves the node with weights,
    at the location it held before or, when it held none, at a location
    that named no array of the store; it keeps the class of the node, and
    every other array of the store is as it was. *)
Theorem learn_from_instance_writes_own_weights_only (self self' : node) (X y : vec)
    (weight : float64) (rht : HoeffdingTreeRegressor) (h h' : heap) :
  learn_from_instance self X y weight rht h = Ok (self', h') ->
  exists l : loc,
    perceptron_weight self' = Some l
    /\ class_of self' = class_of self
    /\ (perceptron_weight self = Some l
        \/ (perceptron_weight self = None /\ h !! l = None))
    /\ forall l' : loc, l' <> l -> h' !! l' = h !! l'.
Proof.
  intros H.
  destruct (learn_from_instance_py_int _ _ _ _ _ _ _ _ H) as [n Hn].
  rewrite (learn_from_instance_steps _ _ _ _ _ _ _ Hn) in H.
  unfold learn_with_steps in H.
  destruct (initialize_weights self X y h) as [[self1 h1]|] eqn:Hi;
    simpl in H; [|discriminate].
  destruct (observe (_stats self1) y weight) as [st|]; simpl in H; [|discriminate].
  destruct (gradient_steps _ X y _ rht _) as [[self3 h3]|] eqn:Hg; simpl in H;
    [|discriminate].
  injection H as <- <-.
  pose proof (initialize_weights_class _ _ _ _ _ _ Hi) as Hc.
  pose proof (gradient_steps_frame _ _ _ _ _ _ _ _ _ Hg) as Hf.
  assert (P : forall s, perceptron_weight (update_observers s X y weight rht)
                        = perceptron_weight s
                        /\ class_of (update_observers s X y weight rht) = class_of s).
  { intros s. unfold update_observers. destruct (is_active _); split; reflexivity. }
  destruct (P self3) as [-> ->]. rewrite Hf. simpl. clear P.
  destruct (perceptron_weight self) as [l|] eqn:Hw.
  - rewrite (initialize_weights_Some _ _ _ _ _ Hw) in Hi. injection Hi as <- <-.
    exists l. split; [exact Hw|]. split; [reflexivity|]. split; [left; reflexivity|].
    pose proof (fun E => gradient_steps_heap _ _ _ _ _ _ _ _ _ l E Hg) as Hh.
    destruct (Hh Hw) as [_ Hother]. exact Hother.
  - pose proof (initialize_weights_None self X y h Hw) as Hi'. cbv zeta in Hi'.
    rewrite Hi' in Hi. injection Hi as <- <-.
    exists (fresh (dom h)). split; [reflexivity|]. split; [reflexivity|].
    split; [right; split; [reflexivity | apply fresh_not_in_heap]|].
    pose proof (fun E => gradient_steps_heap _ _ _ _ _ _ _ _ _ (fresh (dom h)) E Hg)
      as Hh.
    destruct (Hh eq_refl) as [_ Hother].
    intros l' Hl'. rewrite (Hother l' Hl'). apply lookup_insert_ne. congruence.
Qed.

Lemma learn_from_instance_writes_own_weights_only_witness :
  exists (self' : node) (h' : heap),
    learn_from_instance (fresh_node InactiveAdaptiveMultiTarget)
      [Fin 3] [Fin 3] (Fin 2) unit_rht sample_heap = Ok (self', h')
    /\ exists l : loc,
         perceptron_weight self' = Some l
         /\ class_of self' = InactiveAdaptiveMultiTarget
         /\ (perceptron_weight (fresh_node InactiveAdaptiveMultiTarget) = Some l
             \/ (perceptron_weight (fresh_node InactiveAdaptiveMultiTarget) = None
                 /\ sample_heap !! l = None))
         /\ forall l' : loc, l' <> l -> h' !! l' = sample_heap !! l'.
Proof.
  assert (R : exists s, learn_from_instance (fresh_node InactiveAdaptiveMultiTarget)
                [Fin 3] [Fin 3] (Fin 2) unit_rht sample_heap = Ok s).
  { eexists. vm_compute. reflexivity. }
  destruct R as [[self' h'] R]. exists self', h'. split; [exact R|].
  exact (learn_from_instance_writes_own_weights_only _ _ _ _ _ _ _ _ R).
Defined.

(** X3. The generator of a node is drawn from by the call that finds the
    weights uninitialized, for one value per entry of the weight matrix
    (one row per target, one column per feature and one for the bias), and
    by no other call. *)
Theorem learn_from_instance_draws_once (self self' : node) (X y : vec)
    (weight : float64) (rht : HoeffdingTreeRegressor) (h h' : heap) :
  learn_from_instance self X y weight rht h = Ok (self', h') ->
  rs_samples (random_state self') = rs_samples (random_state self)
  /\ rs_consumed (random_state self') =
     (rs_consumed (random_state self)
      + match perceptron_weight self with
        | None => length y * (length X + 1)
        | Some _ => 0
        end)%nat.
Proof.
  intros H.
  destruct (learn_from_instance_py_int _ _ _ _ _ _ _ _ H) as [n Hn].
  rewrite (learn_from_instance_steps _ _ _ _ _ _ _ Hn) in H.
  unfold learn_with_steps in H.
  destruct (initialize_weights self X y h) as [[self1 h1]|] eqn:Hi;
    simpl in H; [|discriminate].
  destruct (observe (_stats self1) y weight) as [st|]; simpl in H; [|discriminate].
  destruct (gradient_steps _ X y _ rht _) as [[self3 h3]|] eqn:Hg; simpl in H;
    [|discriminate].
  injection H as <- _.
  pose proof (gradient_steps_frame _ _ _ _ _ _ _ _ _ Hg) as Hf.
  assert (P : random_state (update_observers self3 X y weight rht)
              = random_state self1).
  { unfold update_observers. rewrite Hf. destruct (is_active _); reflexivity. }
  rewrite P. clear P Hf Hg.
  destruct (perceptron_weight self) as [l|] eqn:Hw.
  - rewrite (initialize_weights_Some _ _ _ _ _ Hw) in Hi. injection Hi as <- _.
    split; [reflexivity | lia].
  - pose proof (initialize_weights_None self X y h Hw) as Hi'. cbv zeta in Hi'.
    rewrite Hi' in Hi. injection Hi as <- _. simpl. split; reflexivity.
Qed.

Lemma learn_from_instance_draws_once_witness :
  exists (self' : node) (h' : heap),
    learn_from_instance (fresh_node ActivePerceptronMultiTarget)
      [Fin 1; Fin 2] [Fin 3] (Fin (17 # 10)) unit_rht ∅ = Ok (self', h')
    /\ rs_consumed (random_state self') = 3%nat.
Proof.
  assert (R : exists s, learn_from_instance (fresh_node ActivePerceptronMultiTarget)
                [Fin 1; Fin 2] [Fin 3] (Fin (17 # 10)) unit_rht ∅ = Ok s).
  { eexists. vm_compute. reflexivity. }
  destruct R as [[self' h'] R]. exists self', h'. split; [exact R|].
  exact (proj2 (learn_from_instance_draws_once _ _ _ _ _ _ _ _ R)).
Defined.

(** ** Weights below 1 and weights that are not numbers *)

Lemma py_int_below_one (q : Q) :
  q < 1 -> exists n, py_int (Fin q) = Ok n /\ Z.to_nat n = 0%nat.
Proof.
  intros Hq. destruct q as [n d]. simpl. eexists. split; [reflexivity|].
  unfold Qlt in Hq. simpl in Hq.
  destruct (Z_lt_le_dec n 0) as [Hn|Hn].
  - assert (H : (n ÷ Z.pos d <= 0)%Z).
    { replace n with (- - n)%Z by lia.
      rewrite Z.quot_opp_l by lia.
      pose proof (Z.quot_pos (- n) (Z.pos d)). lia. }
    lia.
  - rewrite Z.quot_small by lia. reflexivity.
Qed.

(** X4. An instance of weight below 1 (a negative weight included) gives
    no gradient step: on a node whose weights are initialized the call
    updates the statistics with the weight, and the observers on an active
    node, and leaves the store, hence the weights, and the faded errors as
    they were.  The features are not checked against the weights: the call
    raises only if the statistics cannot be accumulated. *)
Theorem learn_from_instance_weight_below_one (self : node) (X y : vec) (q : Q)
    (rht : HoeffdingTreeRegressor) (h : heap) (l : loc) :
  q < 1 ->
  perceptron_weight self = Some l ->
  learn_from_instance self X y (Fin q) rht h
  = (let? st := observe (_stats self) y (Fin q) in
     Ok (update_observers (set_stats self st) X y (Fin q) rht, h))
  /\ forall self' h',
       learn_from_instance self X y (Fin q) rht h = Ok (self', h') ->
       h' = h /\ perceptron_weight self' = Some l
       /\ fMAE_P self' = fMAE_P self /\ fMAE_M self' = fMAE_M self
       /\ stats_0 (_stats self') =
          Some (match stats_0 (_stats self) with
                | Some c => fadd c (Fin q)
                | None => Fin q
                end).
Proof.
  intros Hq Hw.
  destruct (py_int_below_one q Hq) as (n & Hn & Hn0).
  assert (E : learn_from_instance self X y (Fin q) rht h
              = (let? st := observe (_stats self) y (Fin q) in
                 Ok (update_observers (set_stats self st) X y (Fin q) rht, h))).
  { rewrite (learn_from_instance_steps _ _ _ _ _ _ _ Hn), Hn0.
    unfold learn_with_steps. rewrite (initialize_weights_Some _ _ _ _ _ Hw).
    simpl. destruct (observe (_stats self) y (Fin q)); reflexivity. }
  split; [exact E|].
  intros self' h' H. rewrite E in H.
  destruct (observe (_stats self) y (Fin q)) as [st|] eqn:Ho; simpl in H;
    [|discriminate].
  injection H as <- <-.
  destruct (observe_count _ _ _ _ Ho) as [Hc _].
  unfold update_observers.
  destruct (is_active _); simpl; rewrite Hc, ?Hw; repeat split; reflexivity.
Qed.

Lemma learn_from_instance_weight_below_one_witness :
  learn_from_instance (sample_node ActiveAdaptiveMultiTarget)
    [Fin 1; Fin 2; Fin 3] [Fin 3] (Fin (- 5 # 2)) unit_rht sample_heap
  = (let? st := observe (_stats (sample_node ActiveAdaptiveMultiTarget)) [Fin 3]
                  (Fin (- 5 # 2)) in
     Ok (update_observers (set_stats (sample_node ActiveAdaptiveMultiTarget) st)
           [Fin 1; Fin 2; Fin 3] [Fin 3] (Fin (- 5 # 2)) unit_rht, sample_heap)).
Proof.
  exact (proj1 (learn_from_instance_weight_below_one
                  (sample_node ActiveAdaptiveMultiTarget) [Fin 1; Fin 2; Fin 3]
                  [Fin 3] (- 5 # 2) unit_rht sample_heap 1%positive
                  eq_refl eq_refl)).
Defined.

(** X5. A weight that is not a finite number makes [learn_from_instance]
    raise, whatever the node: [int(weight)] raises [OverflowError] on an
    infinity and [ValueError] on NaN.  On a node without the sum of targets
    in its statistics, these are the exceptions of the call. *)
Theorem learn_from_instance_weight_not_finite (self : node) (X y : vec)
    (weight : float64) (rht : HoeffdingTreeRegressor) (h : heap) :
  is_finite weight = false ->
  (exists e, learn_from_instance self X y weight rht h = Raise e)
  /\ (stats_1 (_stats self) = None ->
      learn_from_instance self X y weight rht h =
      Raise (match weight with NaN => ValueError | _ => OverflowError end)).
Proof.
  intros Hf.
  assert (Hn : py_int weight =
               Raise (match weight with NaN => ValueError | _ => OverflowError end)).
  { destruct weight; [discriminate | reflexivity | reflexivity]. }
  rewrite (learn_from_instance_raise _ _ _ _ _ _ _ Hn).
  destruct (initialize_weights_total self X y h) as (self1 & h1 & Hi).
  rewrite Hi. simpl.
  rewrite (initialize_weights_stats _ _ _ _ _ _ Hi).
  split.
  - destruct (observe (_stats self) y weight); simpl; eauto.
  - intros H1. unfold observe. rewrite H1. reflexivity.
Qed.

Lemma learn_from_instance_weight_not_finite_witness :
  learn_from_instance (fresh_node ActivePerceptronMultiTarget)
    [Fin 1; Fin 2] [Fin 3] (Inf false) unit_rht ∅ = Raise OverflowError
  /\ learn_from_instance (fresh_node InactiveAdaptiveMultiTarget)
       [Fin 1; Fin 2] [Fin 3] NaN unit_rht ∅ = Raise ValueError.
Proof.
  split.
  - exact (proj2 (learn_from_instance_weight_not_finite
                    (fresh_node ActivePerceptronMultiTarget) [Fin 1; Fin 2]
                    [Fin 3] (Inf false) unit_rht ∅ eq_refl) eq_refl).
  - exact (proj2 (learn_from_instance_weight_not_finite
                    (fresh_node InactiveAdaptiveMultiTarget) [Fin 1; Fin 2]
                    [Fin 3] NaN unit_rht ∅ eq_refl) eq_refl).
Defined.

(** ** The shape of the weights *)

Lemma has_shape_normalize_rows (r c : nat) (W : matrix) :
  has_shape r c W -> has_shape r c (normalize_rows W).
Proof.
  intros [HL HR]. rewrite normalize_rows_map. split.
  - rewrite length_map. exact HL.
  - apply List.Forall_forall. intros row Hin.
    apply in_map_iff in Hin. destruct Hin as (row0 & <- & Hin0).
    unfold divide_row, np_div_scalar. rewrite length_map.
    rewrite List.Forall_forall in HR. exact (HR row0 Hin0).
Qed.

Lemma broadcast_to_length {A} (n : nat) (l l' : list A) :
  broadcast_to n l = Ok l' -> length l' = n.
Proof.
  unfold broadcast_to. destruct (Nat.eqb_spec (length l) n) as [E|E].
  - intros [= <-]. exact E.
  - destruct l as [|a [|b l]]; try discriminate.
    intros [= <-]. apply repeat_length.
Qed.

Lemma zip_rows_shape (c : nat) (W M W' : matrix) :
  Forall (fun row => length row = c) W ->
  length M = length W ->
  zip_rows W M = Ok W' ->
  length W' = length W /\ Forall (fun row => length row = c) W'.
Proof.
  revert M W'. induction W as [|r W IH]; intros M W' HR HL H.
  - assert (W' = []) as -> by (destruct M; simpl in H; congruence).
    split; [reflexivity | apply List.Forall_nil].
  - destruct M as [|m M]; [discriminate HL|]. simpl in H.
    destruct (broadcast_to (length r) m) as [m'|] eqn:Hb; simpl in H; [|discriminate].
    destruct (zip_rows W M) as [rest|] eqn:Hz; simpl in H; [|discriminate].
    injection H as <-. inversion HR as [|? ? Hr HW]; subst.
    destruct (IH M rest HW ltac:(simpl in HL; lia) Hz) as [L F].
    split; [simpl; lia|]. constructor; [|exact F].
    rewrite length_zip_with, (broadcast_to_length _ _ _ Hb). lia.
Qed.

Lemma np_iadd_shape (r c : nat) (W M W' : matrix) :
  has_shape r c W -> np_iadd W M = Ok W' -> has_shape r c W'.
Proof.
  intros [HL HR] H. unfold np_iadd in H.
  destruct (broadcast_to (length W) M) as [M'|] eqn:Hb; simpl in H; [|discriminate].
  destruct (zip_rows_shape c W M' W' HR (broadcast_to_length _ _ _ Hb) H) as [L F].
  split; [lia | exact F].
Qed.

Lemma uniform_shape (rs : RandomState) (rows cols : nat) :
  has_shape rows cols (uniform rs rows cols).1.
Proof.
  unfold uniform. simpl. split.
  - rewrite length_map, length_seq. reflexivity.
  - apply List.Forall_forall. intros row Hin.
    apply in_map_iff in Hin. destruct Hin as (i & <- & _).
    rewrite length_map, length_seq. reflexivity.
Qed.

Lemma update_weights_shape (self self' : node) X y lr rht (h h' : heap)
    (l : loc) (W : matrix) (r c : nat) :
  perceptron_weight self = Some l -> h !! l = Some W -> has_shape r c W ->
  update_weights self X y lr rht h = Ok (self', h') ->
  exists W', h' !! l = Some W' /\ has_shape r c W'.
Proof.
  intros Hw Hh Hs H.
  rewrite update_weights_eq in H. unfold update_weights_spec in H.
  destruct (raw_update self X y lr rht h) as [raw|] eqn:Hraw; simpl in H;
    [|discriminate].
  rewrite Hw in H.
  assert (Hh' : h' = <[l := normalize_rows raw]> h).
  { destruct (is_adaptive (class_of self)).
    - destruct (predict self _ h); simpl in H; [|discriminate].
      destruct (update_faded_errors self rht _ _); simpl in H; [|discriminate].
      now injection H as _ <-.
    - now injection H as _ <-. }
  exists (normalize_rows raw). split; [rewrite Hh'; apply lookup_insert_eq|].
  apply has_shape_normalize_rows.
  unfold raw_update in Hraw.
  destruct (predict self _ h); simpl in Hraw; [|discriminate].
  destruct (np_zip fsub _ _); simpl in Hraw; [|discriminate].
  rewrite Hw in Hraw. unfold read in Hraw. rewrite Hh in Hraw. simpl in Hraw.
  exact (np_iadd_shape r c W _ raw Hs Hraw).
Qed.

Lemma gradient_steps_shape (n : nat) X y lr rht (self self' : node) (h h' : heap)
    (l : loc) (W : matrix) (r c : nat) :
  perceptron_weight self = Some l -> h !! l = Some W -> has_shape r c W ->
  gradient_steps n X y lr rht (self, h) = Ok (self', h') ->
  exists W', h' !! l = Some W' /\ has_shape r c W'.
Proof.
  unfold gradient_steps. revert self h W.
  induction n as [|n IH]; intros self h W Hw Hh Hs H; simpl in H.
  - injection H as _ <-. eauto.
  - destruct (update_weights self X y lr rht h) as [[s1 h1]|] eqn:E;
      simpl in H; [|discriminate].
    destruct (update_weights_shape _ _ _ _ _ _ _ _ _ _ _ _ Hw Hh Hs E)
      as (W1 & Hh1 & Hs1).
    apply (IH s1 h1 W1); try assumption.
    apply update_weights_frame in E. rewrite E. exact Hw.
Qed.

(** X6. The weight matrix is created with one row per target and one
    column per feature of the first instance plus one for the bias, and no
    later call of [learn_from_instance] changes its shape. *)
Theorem weights_keep_their_shape (self self' : node) (X y : vec)
    (weight : float64) (rht : HoeffdingTreeRegressor) (h h' : heap) :
  learn_from_instance self X y weight rht h = Ok (self', h') ->
  (perceptron_weight self = None ->
   exists l W, perceptron_weight self' = Some l /\ h' !! l = Some W
               /\ has_shape (length y) (length X + 1) W)
  /\ (forall l W r c,
         perceptron_weight self = Some l -> h !! l = Some W -> has_shape r c W ->
         exists W', perceptron_weight self' = Some l /\ h' !! l = Some W'
                    /\ has_shape r c W').
Proof.
  intros H.
  destruct (learn_from_instance_py_int _ _ _ _ _ _ _ _ H) as [n Hn].
  rewrite (learn_from_instance_steps _ _ _ _ _ _ _ Hn) in H.
  unfold learn_with_steps in H.
  destruct (initialize_weights self X y h) as [[self1 h1]|] eqn:Hi;
    simpl in H; [|discriminate].
  destruct (observe (_stats self1) y weight) as [st|]; simpl in H; [|discriminate].
  destruct (gradient_steps _ X y _ rht _) as [[self3 h3]|] eqn:Hg; simpl in H;
    [|discriminate].
  injection H as <- <-.
  pose proof (gradient_steps_frame _ _ _ _ _ _ _ _ _ Hg) as Hf.
  assert (P : perceptron_weight (update_observers self3 X y weight rht)
              = perceptron_weight self1).
  { unfold update_observers. rewrite Hf. destruct (is_active _); reflexivity. }
  rewrite P. clear P. split.
  - intros Hw.
    pose proof (initialize_weights_None self X y h Hw) as Hi'. cbv zeta in Hi'.
    rewrite Hi' in Hi. injection Hi as <- <-.
    pose proof (fun E1 E2 E3 =>
                  gradient_steps_shape _ _ _ _ _ _ _ _ _ (fresh (dom h))
                    (normalize_rows
                       (uniform (random_state self) (length y) (length X + 1)).1)
                    (length y) (length X + 1) E1 E2 E3 Hg) as HS.
    destruct (HS eq_refl (lookup_insert_eq _ _ _)
                (has_shape_normalize_rows _ _ _
                   (uniform_shape (random_state self) (length y) (length X + 1))))
      as (W' & HW' & HS').
    exists (fresh (dom h)), W'. simpl. auto.
  - intros l W r c Hw Hh Hs.
    rewrite (initialize_weights_Some _ _ _ _ _ Hw) in Hi. injection Hi as <- <-.
    destruct (gradient_steps_shape _ _ _ _ _ (set_stats self st) _ _ _ l W r c
                Hw Hh Hs Hg) as (W' & HW' & HS').
    exists W'. auto.
Qed.

Lemma weights_keep_their_shape_witness :
  exists (self' : node) (h' : heap) (l : loc) (W : matrix),
    learn_from_instance (fresh_node ActiveAdaptiveMultiTarget)
      [Fin 1; Fin 2] [Fin 3; Fin 4; Fin 5] (Fin 2) unit_rht ∅ = Ok (self', h')
    /\ perceptron_weight self' = Some l /\ h' !! l = Some W /\ has_shape 3 3 W.
Proof.
  assert (R : exists s, learn_from_instance (fresh_node ActiveAdaptiveMultiTarget)
                [Fin 1; Fin 2] [Fin 3; Fin 4; Fin 5] (Fin 2) unit_rht ∅ = Ok s).
  { eexists. vm_compute. reflexivity. }
  destruct R as [[self' h'] R].
  destruct (proj1 (weights_keep_their_shape _ _ _ _ _ _ _ _ R) eq_refl)
    as (l & W & Hl & HW & HS).
  exists self', h', l, W. auto.
Defined.

(** ** Streams that fit the node *)

Lemma np_zip_same_length (op : float64 -> float64 -> float64) (u v : vec) :
  length u = length v -> np_zip op u v = Ok (zip_with op u v).
Proof. intros E. unfold np_zip. rewrite E, Nat.eqb_refl. reflexivity. Qed.

Lemma zip_rows_ok (c : nat) (W M : matrix) :
  Forall (fun row => length row = c) W ->
  Forall (fun row => length row = c) M ->
  exists W', zip_rows W M = Ok W'.
Proof.
  intros HW. revert M. induction HW as [|r W Hr _ IH]; intros M HM.
  - destruct M; simpl; eauto.
  - destruct HM as [|m M Hm HM]; simpl; [eauto|].
    replace (length r) with (length m) by congruence.
    rewrite broadcast_to_same. simpl.
    destruct (IH M HM) as [rest ->]. simpl. eauto.
Qed.

Lemma np_iadd_ok (r c : nat) (W M : matrix) :
  has_shape r c W -> has_shape r c M -> exists W', np_iadd W M = Ok W'.
Proof.
  intros [LW FW] [LM FM]. unfold np_iadd.
  replace (length W) with (length M) by congruence.
  rewrite broadcast_to_same. simpl. exact (zip_rows_ok c W M FW FM).
Qed.

Lemma outer_shape (lr : float64) (d x : vec) :
  has_shape (length d) (length x) (map (np_scale lr) (outer d x)).
Proof.
  unfold outer, np_scale. split.
  - rewrite !length_map. reflexivity.
  - apply List.Forall_forall. intros row Hin.
    apply in_map_iff in Hin. destruct Hin as (r0 & <- & Hin).
    apply in_map_iff in Hin. destruct Hin as (di & <- & _).
    rewrite !length_map. reflexivity.
Qed.

Lemma faded_update_fits (m : nat) (f : faded_error) (v : vec) :
  (forall u, f = NdArray u -> length u = m) -> length v = m ->
  exists u', faded_update f v = Ok (NdArray u') /\ length u' = m.
Proof.
  intros Hf Hv. destruct f as [x|u]; simpl.
  - eexists. split; [reflexivity|]. rewrite length_map. exact Hv.
  - specialize (Hf u eq_refl).
    rewrite np_zip_same_length by (unfold np_scale; rewrite length_map; congruence).
    simpl. eexists. split; [reflexivity|].
    rewrite length_zip_with. unfold np_scale. rewrite length_map. lia.
Qed.

(** A node ready for a gradient step on instances of [n] features and [m]
    targets keeps being so, and the step raises nothing. *)
Lemma update_weights_fits (n m : nat) (self : node) X y lr rht (h : heap)
    (l : loc) (W : matrix) (c : float64) (s1 : vec) :
  keeps_dimensions rht -> length X = n -> length y = m ->
  perceptron_weight self = Some l -> h !! l = Some W -> has_shape m (n + 1) W ->
  stats_0 (_stats self) = Some c -> stats_1 (_stats self) = Some s1 ->
  length s1 = m ->
  (forall v, fMAE_P self = NdArray v -> length v = m) ->
  (forall v, fMAE_M self = NdArray v -> length v = m) ->
  exists self' h' W',
    update_weights self X y lr rht h = Ok (self', h')
    /\ _stats self' = _stats self
    /\ perceptron_weight self' = Some l
    /\ h' !! l = Some W' /\ has_shape m (n + 1) W'
    /\ (forall v, fMAE_P self' = NdArray v -> length v = m)
    /\ (forall v, fMAE_M self' = NdArray v -> length v = m).
Proof.
  intros [Hns Hnt] HX Hy Hw Hh Hs H0 H1 L1 HP HM.
  rewrite update_weights_eq. unfold update_weights_spec, raw_update.
  rewrite predict_eq, Hw. unfold read. rewrite Hh. simpl.
  destruct Hs as [LW FW].
  assert (FW' : Forall (fun row => length row = length (normalize_sample rht X)) W).
  { rewrite Hns, HX. eapply Forall_impl; [exact FW|]. simpl. intros; lia. }
  rewrite (matmul_shape W _ FW'). simpl.
  assert (Lp : length (normalize_target_value rht y)
               = length (map (fun row => dot row (normalize_sample rht X)) W)).
  { rewrite Hnt, length_map. congruence. }
  rewrite (np_zip_same_length fsub _ _ Lp). simpl.
  set (diff := zip_with fsub (normalize_target_value rht y)
                 (map (fun row => dot row (normalize_sample rht X)) W)).
  assert (Ld : length diff = m).
  { unfold diff. rewrite length_zip_with, <- Lp, Hnt. lia. }
  destruct (np_iadd_ok m (n + 1) W
              (map (np_scale lr) (outer diff (normalize_sample rht X))))
    as [raw Hraw].
  { split; assumption. }
  { pose proof (outer_shape lr diff (normalize_sample rht X)) as Ho.
    rewrite Ld, Hns, HX in Ho. replace (n + 1)%nat with (S n) by lia. exact Ho. }
  rewrite Hraw. simpl.
  assert (HS' : has_shape m (n + 1) (normalize_rows raw)).
  { apply has_shape_normalize_rows.
    exact (np_iadd_shape m (n + 1) W _ raw (conj LW FW) Hraw). }
  destruct (is_adaptive (class_of self)).
  - unfold update_faded_errors.
    rewrite (np_zip_same_length fsub _ _ Lp). simpl. fold diff.
    destruct (faded_update_fits m (fMAE_P self) (np_abs diff) HP)
      as (fP & -> & LP).
    { unfold np_abs. rewrite length_map. exact Ld. }
    simpl. rewrite H1, H0. simpl.
    assert (Lm : length (normalize_target_value rht y)
                 = length (normalize_target_value rht (np_div_scalar s1 c))).
    { rewrite !Hnt. unfold np_div_scalar. rewrite length_map. congruence. }
    rewrite (np_zip_same_length fsub _ _ Lm). simpl.
    destruct (faded_update_fits m (fMAE_M self)
                (np_abs (zip_with fsub (normalize_target_value rht y)
                           (normalize_target_value rht (np_div_scalar s1 c)))) HM)
      as (fM & -> & LM).
    { unfold np_abs. rewrite length_map, length_zip_with, <- Lm, Hnt. lia. }
    simpl. eexists _, _, _. split; [reflexivity|]. simpl.
    split; [reflexivity|]. split; [exact Hw|].
    split; [apply lookup_insert_eq|]. split; [exact HS'|].
    split; intros v [= <-]; assumption.
  - eexists _, _, _. split; [reflexivity|].
    split; [reflexivity|]. split; [exact Hw|].
    split; [apply lookup_insert_eq|]. split; [exact HS'|].
    split; assumption.
Qed.

Lemma gradient_steps_fits (k n m : nat) (self : node) X y lr rht (h : heap)
    (l : loc) (W : matrix) (c : float64) (s1 : vec) :
  keeps_dimensions rht -> length X = n -> length y = m ->
  perceptron_weight self = Some l -> h !! l = Some W -> has_shape m (n + 1) W ->
  stats_0 (_stats self) = Some c -> stats_1 (_stats self) = Some s1 ->
  length s1 = m ->
  (forall v, fMAE_P self = NdArray v -> length v = m) ->
  (forall v, fMAE_M self = NdArray v -> length v = m) ->
  exists self' h' W',
    gradient_steps k X y lr rht (self, h) = Ok (self', h')
    /\ _stats self' = _stats self
    /\ perceptron_weight self' = Some l
    /\ h' !! l = Some W' /\ has_shape m (n + 1) W'
    /\ (forall v, fMAE_P self' = NdArray v -> length v = m)
    /\ (forall v, fMAE_M self' = NdArray v -> length v = m).
Proof.
  intros Hk HX Hy. unfold gradient_steps. revert self h W.
  induction k as [|k IH]; intros self h W Hw Hh Hs H0 H1 L1 HP HM; simpl.
  - exists self, h, W. split; [reflexivity|]. split; [reflexivity|].
    split; [exact Hw|]. split; [exact Hh|]. split; [exact Hs|].
    split; assumption.
  - destruct (update_weights_fits n m self X y lr rht h l W c s1
                Hk HX Hy Hw Hh Hs H0 H1 L1 HP HM)
      as (s' & h' & W' & -> & Hst & Hw' & Hh' & Hs' & HP' & HM').
    simpl.
    destruct (IH s' h' W' Hw' Hh' Hs' ltac:(rewrite Hst; exact H0)
                ltac:(rewrite Hst; exact H1) L1 HP' HM')
      as (s'' & h'' & W'' & -> & Hst'' & R).
    exists s'', h'', W''. split; [reflexivity|]. split; [congruence | exact R].
Qed.

Lemma observe_fits (m : nat) (s : stats) (y : vec) (weight : float64) :
  (forall v, stats_1 s = Some v -> length v = m) ->
  (forall v, stats_2 s = Some v -> length v = m) ->
  length y = m ->
  exists c s1 s2,
    observe s y weight = Ok (mk_stats (Some c) (Some s1) (Some s2))
    /\ length s1 = m /\ length s2 = m.
Proof.
  intros H1 H2 Hy. unfold observe.
  assert (Lwy : length (np_scale weight y) = m)
    by (unfold np_scale; rewrite length_map; exact Hy).
  assert (Lwyy : length (zip_with fmul (np_scale weight y) y) = m)
    by (rewrite length_zip_with; lia).
  destruct (stats_1 s) as [s1|].
  - specialize (H1 s1 eq_refl).
    replace (length s1) with (length (np_scale weight y)) by congruence.
    rewrite broadcast_to_same. simpl.
    destruct (stats_2 s) as [s2|].
    + specialize (H2 s2 eq_refl).
      replace (length s2) with (length (zip_with fmul (np_scale weight y) y))
        by congruence.
      rewrite broadcast_to_same. simpl.
      eexists _, _, _. split; [reflexivity|].
      rewrite !length_zip_with. split; lia.
    + eexists _, _, _. split; [reflexivity|]. split; assumption.
  - eexists _, _, _. split; [reflexivity|]. split; assumption.
Qed.

Lemma learn_from_instance_fits (n m : nat) (self : node) (X y : vec)
    (weight : float64) (rht : HoeffdingTreeRegressor) (h : heap) :
  keeps_dimensions rht -> node_fits n m self h ->
  length X = n -> length y = m -> is_finite weight = true ->
  exists self' h',
    learn_from_instance self X y weight rht h = Ok (self', h')
    /\ node_fits n m self' h'.
Proof.
  intros Hk (FW & F1 & F2 & FP & FM) HX Hy Hfin.
  destruct weight as [q| |]; try discriminate.
  rewrite (learn_from_instance_steps self X y (Fin q) rht h _ eq_refl).
  unfold learn_with_steps.
  assert (Hi : exists self1 h1 l W,
             initialize_weights self X y h = Ok (self1, h1)
             /\ perceptron_weight self1 = Some l /\ h1 !! l = Some W
             /\ has_shape m (n + 1) W
             /\ _stats self1 = _stats self
             /\ fMAE_P self1 = fMAE_P self /\ fMAE_M self1 = fMAE_M self).
  { destruct (perceptron_weight self) as [l|] eqn:Hw.
    - destruct (FW l eq_refl) as (W & HW & HS).
      rewrite (initialize_weights_Some _ _ _ _ _ Hw).
      exists self, h, l, W. split; [reflexivity|]. split; [exact Hw|].
      split; [exact HW|]. split; [exact HS|]. repeat split.
    - rewrite (initialize_weights_None _ _ _ _ Hw).
      eexists _, _, (fresh (dom h)), _. split; [reflexivity|].
      split; [reflexivity|]. split; [apply lookup_insert_eq|].
      split; [|repeat split].
      apply has_shape_normalize_rows. rewrite <- Hy, <- HX. apply uniform_shape. }
  destruct Hi as (self1 & h1 & l & W & -> & Hw1 & Hh1 & Hs1 & Hst & HP1 & HM1).
  simpl. rewrite Hst.
  destruct (observe_fits m (_stats self) y (Fin q) F1 F2 Hy)
    as (c & s1 & s2 & -> & L1 & L2).
  simpl.
  destruct (gradient_steps_fits (Z.to_nat (Qnum q ÷ Z.pos (Qden q))) n m
              (set_stats self1 (mk_stats (Some c) (Some s1) (Some s2)))
              X y (learning_ratio_for rht (new_count (_stats self) (Fin q)))
              rht h1 l W c s1 Hk HX Hy Hw1 Hh1 Hs1 eq_refl eq_refl L1)
    as (s3 & h3 & W3 & -> & Hst3 & Hw3 & Hh3 & Hs3 & HP3 & HM3).
  { simpl. rewrite HP1. exact FP. }
  { simpl. rewrite HM1. exact FM. }
  simpl. eexists _, _. split; [reflexivity|].
  assert (U : forall s, perceptron_weight (update_observers s X y (Fin q) rht)
                        = perceptron_weight s
                        /\ _stats (update_observers s X y (Fin q) rht) = _stats s
                        /\ fMAE_P (update_observers s X y (Fin q) rht) = fMAE_P s
                        /\ fMAE_M (update_observers s X y (Fin q) rht) = fMAE_M s).
  { intros s. unfold update_observers. destruct (is_active _); repeat split. }
  destruct (U s3) as (U1 & U2 & U3 & U4).
  unfold node_fits. rewrite U1, U2, U3, U4, Hst3. simpl.
  split; [|split; [|split; [|split]]].
  - intros l' Hl'. rewrite Hw3 in Hl'. injection Hl' as <-. eauto.
  - intros s [= <-]. exact L1.
  - intros s [= <-]. exact L2.
  - exact HP3.
  - exact HM3.
Qed.

Lemma learn_all_fits (n m : nat) (instances : list instance) (self : node)
    (rht : HoeffdingTreeRegressor) (h : heap) :
  keeps_dimensions rht -> node_fits n m self h ->
  Forall (instance_fits n m) instances ->
  exists self' h',
    learn_all self instances rht h = Ok (self', h') /\ node_fits n m self' h'.
Proof.
  intros Hk Hn Hi. revert self h Hn.
  induction Hi as [|i rest (HX & Hy & Hw) _ IH]; intros self h Hn; simpl.
  - eauto.
  - destruct (learn_from_instance_fits n m self _ _ _ rht h Hk Hn HX Hy Hw)
      as (s1 & h1 & -> & Hn1).
    simpl. exact (IH s1 h1 Hn1).
Qed.

Lemma node_without_weights_fits (n m : nat) (self : node) (h : heap) :
  perceptron_weight self = None -> _stats self = empty_stats ->
  fMAE_P self = PyFloat f0 -> fMAE_M self = PyFloat f0 ->
  node_fits n m self h.
Proof.
  intros Hw Hs HP HM. unfold node_fits. rewrite Hw, Hs, HP, HM. simpl.
  repeat split; intros; discriminate.
Qed.

(** X7. On a stream that fits, learning raises nothing.  When the
    normalizations of the regressor keep the dimensions, a node built
    without a parent and with empty statistics, of any of the four classes,
    learns from every sequence of instances that have the same number of
    features, the same number of targets and weights that are numbers; and
    so does any node whose weights, sums and faded errors have the
    dimensions of the stream, which it keeps. *)
Theorem learning_a_fitting_stream_raises_nothing (n m : nat)
    (instances : list instance) (rht : HoeffdingTreeRegressor) :
  keeps_dimensions rht ->
  Forall (instance_fits n m) instances ->
  (forall (cls : node_class) (rs : RandomState) (h : heap),
      exists self0 self' h',
        new_node cls empty_stats None rs h = Ok (self0, h)
        /\ learn_all self0 instances rht h = Ok (self', h')
        /\ node_fits n m self' h')
  /\ (forall (self : node) (h : heap),
         node_fits n m self h ->
         exists self' h',
           learn_all self instances rht h = Ok (self', h')
           /\ node_fits n m self' h').
Proof.
  intros Hk Hi. split.
  - intros cls rs h.
    assert (N : exists self0, new_node cls empty_stats None rs h = Ok (self0, h)
                  /\ node_fits n m self0 h).
    { destruct cls; simpl; eexists; (split; [reflexivity|]);
        apply node_without_weights_fits; reflexivity. }
    destruct N as (self0 & Hnew & Hfit).
    destruct (learn_all_fits n m instances self0 rht h Hk Hfit Hi)
      as (self' & h' & Hl & Hf).
    exists self0, self', h'. auto.
  - intros self h Hfit. exact (learn_all_fits n m instances self rht h Hk Hfit Hi).
Qed.

Lemma learning_a_fitting_stream_raises_nothing_witness :
  keeps_dimensions unit_rht
  /\ Forall (instance_fits 2 1) sample_instances
  /\ exists self0 self' h',
       new_node InactiveAdaptiveMultiTarget empty_stats None sample_random_state ∅
       = Ok (self0, ∅)
       /\ learn_all self0 sample_instances unit_rht ∅ = Ok (self', h')
       /\ node_fits 2 1 self' h'.
Proof.
  assert (Hk : keeps_dimensions unit_rht).
  { split; intros v; simpl; [rewrite length_app; simpl; lia | reflexivity]. }
  assert (Hi : Forall (instance_fits 2 1) sample_instances).
  { repeat constructor. }
  split; [exact Hk|]. split; [exact Hi|].
  exact (proj1 (learning_a_fitting_stream_raises_nothing 2 1 sample_instances
                  unit_rht Hk Hi)
           InactiveAdaptiveMultiTarget sample_random_state ∅).
Defined.

(** ** The sufficient statistics *)


Lemma Forall2_Qeq_refl (a : list Q) : Forall2 Qeq a a.
Proof. induction a; constructor; [reflexivity | assumption]. Qed.





Lemma length_Qweighted_sums (f : Q -> Q -> Q) (m : nat) (data : list (Q * list Q)) :
  Forall (fun d => length d.2 = m) data ->
  length (Qweighted_sums f m data) = m.
Proof.
  induction 1 as [|d rest Hd _ IH]; simpl.
  - apply repeat_length.
  - rewrite length_zip_with, length_map, IH, Hd. lia.
Qed.





(** ** Normalizing twice *)




(** ** Adaptive and perceptron-only nodes *)

Lemma update_weights_without_faded_errors (self self' : node) X y lr rht
    (h h' : heap) (m p : faded_error) :
  update_weights self X y lr rht h = Ok (self', h') ->
  update_weights (without_faded_errors m p self) X y lr rht h
  = Ok (without_faded_errors m p self', h').
Proof.
  intros H. pose proof (update_weights_frame _ _ _ _ _ _ _ _ H) as Hf.
  assert (E : without_faded_errors m p self' = without_faded_errors m p self).
  { rewrite Hf. destruct self; reflexivity. }
  rewrite E. clear E Hf.
  rewrite update_weights_eq in H |- *.
  unfold update_weights_spec, raw_update in H |- *.
  rewrite predict_eq in H. rewrite predict_eq.
  unfold without_faded_errors, perceptron_class. simpl.
  destruct (perceptron_weight self) as [l|]; [|discriminate].
  destruct (read h l) as [W|]; simpl in H |- *; [|discriminate].
  destruct (matmul W _) as [pr|]; simpl in H |- *; [|discriminate].
  destruct (np_zip fsub _ pr) as [d|]; simpl in H |- *; [|discriminate].
  destruct (np_iadd W _) as [raw|]; simpl in H |- *; [|discriminate].
  assert (Hh : h' = <[l := normalize_rows raw]> h).
  { destruct (is_adaptive (class_of self)).
    - destruct (update_faded_errors self rht _ _); simpl in H; [|discriminate].
      now injection H as _ <-.
    - now injection H as _ <-. }
  rewrite Hh. destruct (is_active (class_of self)); reflexivity.
Qed.

Lemma gradient_steps_without_faded_errors (n : nat) X y lr rht (self self' : node)
    (h h' : heap) (m p : faded_error) :
  gradient_steps n X y lr rht (self, h) = Ok (self', h') ->
  gradient_steps n X y lr rht (without_faded_errors m p self, h)
  = Ok (without_faded_errors m p self', h').
Proof.
  unfold gradient_steps. revert self h.
  induction n as [|n IH]; intros self h H; simpl in H |- *.
  - injection H as <- <-. reflexivity.
  - destruct (update_weights self X y lr rht h) as [[s1 h1]|] eqn:E;
      simpl in H; [|discriminate].
    rewrite (update_weights_without_faded_errors _ _ _ _ _ _ _ _ m p E). simpl.
    apply IH, H.
Qed.

(** X10. The faded errors of an adaptive node play no part in what it
    learns.  When [learn_from_instance] returns on a node, it returns on
    the perceptron-only node of the same activity in the same state, with
    the same store, hence the same weights, and the same statistics,
    observers and generator; the perceptron-only node keeps the faded
    errors it had. *)
Theorem faded_errors_do_not_change_what_is_learned (self self' : node) (X y : vec)
    (weight : float64) (rht : HoeffdingTreeRegressor) (h h' : heap) :
  learn_from_instance self X y weight rht h = Ok (self', h') ->
  learn_from_instance
    (with_class self (perceptron_class (class_of self))) X y weight rht h
  = Ok (without_faded_errors (fMAE_M self) (fMAE_P self) self', h').
Proof.
  intros H.
  destruct (learn_from_instance_py_int _ _ _ _ _ _ _ _ H) as [n Hn].
  rewrite (learn_from_instance_steps _ _ _ _ _ _ _ Hn) in H.
  rewrite (learn_from_instance_steps _ _ _ _ _ _ _ Hn).
  unfold learn_with_steps in H |- *.
  rewrite initialize_weights_with_class.
  destruct (initialize_weights self X y h) as [[self1 h1]|] eqn:Hi;
    simpl in H |- *; [|discriminate].
  destruct (observe (_stats self1) y weight) as [st|]; simpl in H |- *;
    [|discriminate].
  destruct (gradient_steps _ X y _ rht (set_stats self1 st, h1))
    as [[self3 h3]|] eqn:Hg; simpl in H; [|discriminate].
  injection H as <- <-.
  pose proof (initialize_weights_class _ _ _ _ _ _ Hi) as Hc.
  assert (HP : fMAE_P self1 = fMAE_P self /\ fMAE_M self1 = fMAE_M self).
  { revert Hi. unfold initialize_weights. destruct (perceptron_weight self).
    - intros [= <- _]. split; reflexivity.
    - destruct (uniform _ _ _) as [W rs]. destruct (alloc h W) as [l h0].
      destruct (normalize_perceptron_weights _ h0); simpl; [|discriminate].
      intros [= <- _]. split; reflexivity. }
  destruct HP as [HP HM].
  pose proof (gradient_steps_without_faded_errors _ _ _ _ _ _ _ _ _
                (fMAE_M self) (fMAE_P self) Hg) as Hg'.
  assert (E : without_faded_errors (fMAE_M self) (fMAE_P self) (set_stats self1 st)
              = set_stats (with_class self1 (perceptron_class (class_of self))) st).
  { unfold without_faded_errors, with_class, set_stats, set_fMAE. simpl.
    rewrite Hc, HP, HM. reflexivity. }
  rewrite E in Hg'. rewrite Hg'. simpl. f_equal. f_equal.
  apply gradient_steps_frame in Hg.
  unfold update_observers, without_faded_errors, perceptron_class.
  rewrite Hg. simpl. rewrite Hc.
  destruct (is_active (class_of self)) eqn:Ha; simpl; rewrite ?Hc, ?Ha;
    reflexivity.
Qed.

Lemma faded_errors_do_not_change_what_is_learned_witness :
  exists (self' : node) (h' : heap),
    learn_from_instance (sample_node ActiveAdaptiveMultiTarget)
      [Fin 3] [Fin 3] (Fin 2) unit_rht sample_heap = Ok (self', h')
    /\ learn_from_instance (sample_node ActivePerceptronMultiTarget)
         [Fin 3] [Fin 3] (Fin 2) unit_rht sample_heap
       = Ok (without_faded_errors (NdArray [f1]) (NdArray [f1]) self', h').
Proof.
  assert (R : exists s, learn_from_instance (sample_node ActiveAdaptiveMultiTarget)
                [Fin 3] [Fin 3] (Fin 2) unit_rht sample_heap = Ok s).
  { eexists. vm_compute. reflexivity. }
  destruct R as [[self' h'] R]. exists self', h'. split; [exact R|].
  exact (faded_errors_do_not_change_what_is_learned _ _ _ _ _ _ _ _ R).
Defined.

(** ** Instances that do not fit *)

Lemma matmul_mismatch (W : matrix) (x row : vec) :
  In row W -> length row <> length x -> matmul W x = Raise ValueError.
Proof.
  intros Hin Hne. unfold matmul.
  destruct (forallb _ W) eqn:E; [|reflexivity].
  rewrite forallb_forall in E. specialize (E row Hin).
  apply Nat.eqb_eq in E. contradiction.
Qed.

Lemma observe_raises_ValueError (s : stats) (y : vec) (weight : float64) (e : exn) :
  observe s y weight = Raise e -> e = ValueError.
Proof.
  assert (B : forall n (l : vec) e', broadcast_to n l = Raise e' -> e' = ValueError).
  { intros n l e'. unfold broadcast_to. destruct (Nat.eqb _ _); [discriminate|].
    destruct l as [|a [|b l]]; intros [= <-] || discriminate; reflexivity. }
  unfold observe. destruct (stats_1 s) as [s1|]; [|discriminate].
  destruct (broadcast_to (length s1) _) eqn:E1; simpl.
  - destruct (stats_2 s) as [s2|]; [|discriminate].
    destruct (broadcast_to (length s2) _) eqn:E2; simpl; [discriminate|].
    intros [= <-]. exact (B _ _ _ E2).
  - intros [= <-]. exact (B _ _ _ E1).
Qed.

(** X11. An instance whose normalized sample has not the length of the
    rows of the weights is refused with [ValueError], by [predict] and, when
    its weight is 1 or more, by [learn_from_instance]: the first gradient
    step fails on its prediction. *)
Theorem instance_of_other_dimension_is_refused (self : node) (X y : vec) (q : Q)
    (rht : HoeffdingTreeRegressor) (h : heap) (l : loc) (W : matrix) (row : vec) :
  perceptron_weight self = Some l ->
  h !! l = Some W ->
  In row W ->
  length row <> length (normalize_sample rht X) ->
  predict self (normalize_sample rht X) h = Raise ValueError
  /\ (1 <= q -> learn_from_instance self X y (Fin q) rht h = Raise ValueError).
Proof.
  intros Hw Hh Hin Hne.
  assert (P : forall s, perceptron_weight s = Some l ->
                predict s (normalize_sample rht X) h = Raise ValueError).
  { intros s Hs. rewrite predict_eq, Hs. unfold read. rewrite Hh. simpl.
    exact (matmul_mismatch W _ row Hin Hne). }
  split; [exact (P self Hw)|].
  intros Hq.
  assert (Hq0 : 0 <= q) by lra.
  rewrite (learn_from_instance_steps _ _ _ _ _ _ _ (py_int_nonneg q Hq0)).
  assert (Hn : exists k, Z.to_nat (Qfloor q) = S k).
  { pose proof (Qfloor_resp_le 1 q Hq) as F. change (Qfloor 1) with 1%Z in F.
    exists (Z.to_nat (Qfloor q) - 1)%nat. lia. }
  destruct Hn as [k ->].
  unfold learn_with_steps. rewrite (initialize_weights_Some _ _ _ _ _ Hw). simpl.
  destruct (observe (_stats self) y (Fin q)) as [st|e] eqn:Ho; simpl.
  - unfold gradient_steps. simpl. rewrite update_weights_eq.
    unfold update_weights_spec, raw_update.
    rewrite (P (set_stats self st) Hw). reflexivity.
  - f_equal. exact (observe_raises_ValueError _ _ _ _ Ho).
Qed.

Lemma instance_of_other_dimension_is_refused_witness :
  predict (sample_node ActiveAdaptiveMultiTarget)
          (normalize_sample unit_rht [Fin 1; Fin 2; Fin 3]) sample_heap
  = Raise ValueError
  /\ learn_from_instance (sample_node ActiveAdaptiveMultiTarget)
       [Fin 1; Fin 2; Fin 3] [Fin 3] (Fin (3 # 2)) unit_rht sample_heap
     = Raise ValueError.
Proof.
  destruct (instance_of_other_dimension_is_refused
              (sample_node ActiveAdaptiveMultiTarget) [Fin 1; Fin 2; Fin 3]
              [Fin 3] (3 # 2) unit_rht sample_heap 1%positive
              [[Fin (1 # 2); Fin (1 # 2)]] [Fin (1 # 2); Fin (1 # 2)]
              eq_refl eq_refl ltac:(left; reflexivity) ltac:(simpl; lia))
    as [HP HL].
  split; [exact HP|]. apply HL. unfold Qle. simpl. lia.
Defined.

(** ** A node that predicts exactly *)










(** ** Nodes with arrays of their own *)

Lemma learn_from_instance_keeps_location (self self' : node) X y weight rht
    (h h' : heap) (l : loc) :
  perceptron_weight self = Some l ->
  learn_from_instance self X y weight rht h = Ok (self', h') ->
  perceptron_weight self' = Some l /\
  forall l', l' <> l -> h' !! l' = h !! l'.
Proof.
  intros Hw H.
  destruct (learn_from_instance_py_int _ _ _ _ _ _ _ _ H) as [n Hn].
  rewrite (learn_from_instance_steps _ _ _ _ _ _ _ Hn) in H.
  unfold learn_with_steps in H.
  rewrite (initialize_weights_Some _ _ _ _ _ Hw) in H. simpl in H.
  destruct (observe (_stats self) y weight) as [st|]; simpl in H; [|discriminate].
  destruct (gradient_steps _ X y _ rht _) as [[self3 h3]|] eqn:Hg; simpl in H;
    [|discriminate].
  injection H as <- <-.
  pose proof (gradient_steps_frame _ _ _ _ _ _ _ _ _ Hg) as Hf.
  pose proof (fun E => gradient_steps_heap _ _ _ _ _ _ _ _ _ l E Hg) as Hh.
  destruct (Hh Hw) as [_ Hother].
  split; [|exact Hother].
  unfold update_observers. destruct (is_active _); simpl; rewrite Hf; exact Hw.
Qed.

Lemma learn_all_keeps_location (instances : list instance) (self self' : node) rht
    (h h' : heap) (l : loc) :
  perceptron_weight self = Some l ->
  learn_all self instances rht h = Ok (self', h') ->
  perceptron_weight self' = Some l /\
  forall l', l' <> l -> h' !! l' = h !! l'.
Proof.
  revert self h.
  induction instances as [|i rest IH]; intros self h Hw H; simpl in H.
  - injection H as <- <-. split; [exact Hw | reflexivity].
  - destruct (learn_from_instance self _ _ _ rht h) as [[s1 h1]|] eqn:E;
      simpl in H; [|discriminate].
    destruct (learn_from_instance_keeps_location _ _ _ _ _ _ _ _ _ Hw E)
      as [Hw1 Ho1].
    destruct (IH s1 h1 Hw1 H) as [Hw' Ho'].
    split; [exact Hw'|].
    intros l' Hl'. rewrite (Ho' l' Hl'). apply Ho1, Hl'.
Qed.

(** X13. A child of an active class built from a parent that holds a weight
    array starts with the predictions of the parent, and from then on the
    two learn apart: whatever stream the child learns, the array of the
    parent stays as it was, and whatever stream a node holding the array
    of the parent learns, the predictions of the child stay as they were. *)
Theorem active_child_and_parent_learn_apart (cls : node_class)
    (initial_stats : stats) (parent : pyobject) (rs : RandomState)
    (h h1 : heap) (child : node) (l : loc) (W : matrix) :
  is_active cls = true ->
  getattr parent "perceptron_weights" = Ok (Some l) ->
  h !! l = Some W ->
  new_node cls initial_stats (Some parent) rs h = Ok (child, h1) ->
  (forall x : vec, predict child x h1 = matmul W x)
  /\ (forall (stream : list instance) rht (child' : node) (h2 : heap),
        learn_all child stream rht h1 = Ok (child', h2) -> h2 !! l = Some W)
  /\ (forall (holder holder' : node) (stream : list instance) rht (h2 : heap),
        perceptron_weight holder = Some l ->
        learn_all holder stream rht h1 = Ok (holder', h2) ->
        forall x : vec, predict child x h2 = matmul W x).
Proof.
  intros Ha Hg Hl H.
  assert (Hfresh : fresh (dom h) <> l).
  { intros E. apply (is_fresh (dom h)). rewrite E. apply elem_of_dom. eauto. }
  assert (Hc : perceptron_weight child = Some (fresh (dom h)) /\
               h1 = <[fresh (dom h) := W]> h).
  { destruct cls; try discriminate; simpl in H;
      unfold ActiveLearningNodeAdaptiveMultiTarget.__init__,
             ActiveLearningNodePerceptronMultiTarget.__init__,
             deepcopy, read, alloc in H;
      rewrite Hg in H; simpl in H; rewrite Hl in H; simpl in H;
      injection H as <- <-; split; reflexivity. }
  destruct Hc as [Hw ->].
  split; [|split].
  - intros x. rewrite predict_eq, Hw. unfold read.
    rewrite lookup_insert_eq. reflexivity.
  - intros stream rht child' h2 H2.
    destruct (learn_all_keeps_location _ _ _ _ _ _ _ Hw H2) as [_ Ho].
    rewrite Ho by congruence.
    rewrite lookup_insert_ne by exact Hfresh. exact Hl.
  - intros holder holder' stream rht h2 Hh H2 x.
    destruct (learn_all_keeps_location _ _ _ _ _ _ _ Hh H2) as [_ Ho].
    rewrite predict_eq, Hw. unfold read.
    rewrite (Ho (fresh (dom h)) Hfresh), lookup_insert_eq. reflexivity.
Qed.

Lemma active_child_and_parent_learn_apart_witness :
  exists (child : node) (h1 : heap),
    new_node ActiveAdaptiveMultiTarget empty_stats (Some parent_with_weights)
      sample_random_state sample_heap = Ok (child, h1)
    /\ (forall x : vec,
          predict child x h1 = matmul [[Fin (1 # 2); Fin (1 # 2)]] x)
    /\ (forall (stream : list instance) rht (child' : node) (h2 : heap),
          learn_all child stream rht h1 = Ok (child', h2) ->
          h2 !! 1%positive = Some [[Fin (1 # 2); Fin (1 # 2)]])
    /\ (forall (holder holder' : node) (stream : list instance) rht (h2 : heap),
          perceptron_weight holder = Some 1%positive ->
          learn_all holder stream rht h1 = Ok (holder', h2) ->
          forall x : vec,
            predict child x h2 = matmul [[Fin (1 # 2); Fin (1 # 2)]] x).
Proof.
  assert (R : exists s, new_node ActiveAdaptiveMultiTarget empty_stats
                (Some parent_with_weights) sample_random_state sample_heap = Ok s).
  { eexists. vm_compute. reflexivity. }
  destruct R as [[child h1] R]. exists child, h1. split; [exact R|].
  exact (active_child_and_parent_learn_apart ActiveAdaptiveMultiTarget empty_stats
           parent_with_weights sample_random_state sample_heap h1 child
           1%positive [[Fin (1 # 2); Fin (1 # 2)]] eq_refl eq_refl eq_refl R).
Defined.

(** ** The sign of the faded errors *)

Lemma not_negative_fabs (x : float64) : not_negative (fabs x).
Proof.
  destruct x as [q| |]; simpl; [|reflexivity|exact I].
  rewrite Qred_correct. apply Qabs_nonneg.
Qed.

Lemma not_negative_decay (x : float64) :
  not_negative x -> not_negative (fmul decay x).
Proof.
  destruct x as [q|s|]; simpl; intros H; [| |exact I].
  - unfold fmul, decay. simpl. rewrite Qred_correct.
    apply Qmult_le_0_compat; [discriminate | exact H].
  - subst s. reflexivity.
Qed.

Lemma not_negative_fadd (x y : float64) :
  not_negative x -> not_negative y -> not_negative (fadd x y).
Proof.
  destruct x as [a|s|], y as [b|t|]; unfold fadd; simpl; intros Hx Hy;
    try exact I; try assumption.
  - rewrite Qred_correct.
    rewrite <- (Qplus_0_l 0). apply Qplus_le_compat; assumption.
  - subst s t. reflexivity.
Qed.

Lemma Forall_map_image {A B} (P : A -> Prop) (Q : B -> Prop) (f : A -> B)
    (l : list A) :
  (forall x, P x -> Q (f x)) -> Forall P l -> Forall Q (map f l).
Proof.
  intros Hf Hl. induction Hl as [|x l Hx _ IH]; simpl; constructor; auto.
Qed.

Lemma np_zip_Forall (P : float64 -> Prop) (op : float64 -> float64 -> float64)
    (u v r : vec) :
  (forall a b, P a -> P b -> P (op a b)) ->
  Forall P u -> Forall P v -> np_zip op u v = Ok r -> Forall P r.
Proof.
  intros Hop Hu Hv. unfold np_zip.
  destruct (Nat.eqb (length u) (length v)).
  - intros [= <-]. clear -Hop Hu Hv. revert v Hv.
    induction Hu as [|a u Ha _ IH]; intros v Hv; simpl; [constructor|].
    destruct Hv as [|b v Hb Hv]; [constructor|].
    constructor; [apply Hop; assumption | apply IH, Hv].
  - destruct u as [|a [|a' u]].
    + destruct v as [|b [|b' v]]; try discriminate.
      intros [= <-]. constructor.
    + intros [= <-].
      exact (Forall_map_image P P (op a) v
               (fun x Hx => Hop a x (Forall_inv Hu) Hx) Hv).
    + destruct v as [|b [|b' v]]; try discriminate.
      intros [= <-].
      exact (Forall_map_image P P (fun x => op x b) (a :: a' :: u)
               (fun x Hx => Hop x b Hx (Forall_inv Hv)) Hu).
Qed.

Lemma faded_update_not_negative (f f' : faded_error) (err : vec) :
  faded_error_not_negative f ->
  faded_update f (np_abs err) = Ok f' ->
  faded_error_not_negative f'.
Proof.
  assert (Habs : Forall not_negative (np_abs err)).
  { apply List.Forall_forall. intros x Hin. apply in_map_iff in Hin.
    destruct Hin as (e & <- & _). apply not_negative_fabs. }
  destruct f as [x|u]; simpl; intros Hf H.
  - injection H as <-. simpl. apply List.Forall_forall. intros z Hin.
    apply in_map_iff in Hin. destruct Hin as (e & <- & He).
    apply not_negative_fadd; [apply not_negative_decay, Hf|].
    rewrite List.Forall_forall in Habs. apply Habs, He.
  - destruct (np_zip fadd (np_scale decay u) (np_abs err)) as [r|] eqn:E;
      simpl in H; [|discriminate].
    injection H as <-. simpl.
    apply (np_zip_Forall not_negative fadd _ _ r not_negative_fadd) in E;
      [exact E | | exact Habs].
    apply List.Forall_forall. intros z Hin. apply in_map_iff in Hin.
    destruct Hin as (e & <- & He). apply not_negative_decay.
    rewrite List.Forall_forall in Hf. apply Hf, He.
Qed.

Lemma update_weights_not_negative (self self' : node) X y lr rht (h h' : heap) :
  faded_error_not_negative (fMAE_M self) ->
  faded_error_not_negative (fMAE_P self) ->
  update_weights self X y lr rht h = Ok (self', h') ->
  faded_error_not_negative (fMAE_M self') /\
  faded_error_not_negative (fMAE_P self').
Proof.
  intros HM HP. rewrite update_weights_eq. unfold update_weights_spec. intros H.
  destruct (raw_update self X y lr rht h); simpl in H; [|discriminate].
  destruct (perceptron_weight self); [|discriminate].
  destruct (is_adaptive (class_of self)).
  - destruct (predict self _ h) as [p|]; simpl in H; [|discriminate].
    destruct (update_faded_errors self rht _ _) as [s|] eqn:E; simpl in H;
      [|discriminate].
    injection H as <- _. unfold update_faded_errors in E.
    destruct (np_zip fsub _ p) as [eP|]; simpl in E; [|discriminate].
    destruct (faded_update (fMAE_P self) (np_abs eP)) as [fP|] eqn:EP;
      simpl in E; [|discriminate].
    destruct (stats_1 (_stats self)); simpl in E; [|discriminate].
    destruct (stats_0 (_stats self)); simpl in E; [|discriminate].
    destruct (np_zip fsub _ _) as [eM|]; simpl in E; [|discriminate].
    destruct (faded_update (fMAE_M self) (np_abs eM)) as [fM|] eqn:EM;
      simpl in E; [|discriminate].
    injection E as <-. simpl. split.
    + exact (faded_update_not_negative _ _ _ HM EM).
    + exact (faded_update_not_negative _ _ _ HP EP).
  - injection H as <- _. split; assumption.
Qed.

Lemma gradient_steps_not_negative (n : nat) X y lr rht (self self' : node)
    (h h' : heap) :
  faded_error_not_negative (fMAE_M self) ->
  faded_error_not_negative (fMAE_P self) ->
  gradient_steps n X y lr rht (self, h) = Ok (self', h') ->
  faded_error_not_negative (fMAE_M self') /\
  faded_error_not_negative (fMAE_P self').
Proof.
  unfold gradient_steps. revert self h.
  induction n as [|n IH]; intros self h HM HP H; simpl in H.
  - injection H as <- _. split; assumption.
  - destruct (update_weights self X y lr rht h) as [[s1 h1]|] eqn:E;
      simpl in H; [|discriminate].
    destruct (update_weights_not_negative _ _ _ _ _ _ _ _ HM HP E) as [HM1 HP1].
    exact (IH s1 h1 HM1 HP1 H).
Qed.

Lemma initialize_weights_faded_errors (self self1 : node) X y (h h1 : heap) :
  initialize_weights self X y h = Ok (self1, h1) ->
  fMAE_M self1 = fMAE_M self /\ fMAE_P self1 = fMAE_P self.
Proof.
  unfold initialize_weights. destruct (perceptron_weight self).
  - intros [= <- _]. split; reflexivity.
  - destruct (uniform _ _ _) as [W rs]. destruct (alloc h W) as [l h0].
    destruct (normalize_perceptron_weights _ h0); simpl; [|discriminate].
    intros [= <- _]. split; reflexivity.
Qed.

Lemma learn_from_instance_not_negative (self self' : node) X y weight rht
    (h h' : heap) :
  faded_error_not_negative (fMAE_M self) ->
  faded_error_not_negative (fMAE_P self) ->
  learn_from_instance self X y weight rht h = Ok (self', h') ->
  faded_error_not_negative (fMAE_M self') /\
  faded_error_not_negative (fMAE_P self').
Proof.
  intros HM HP H.
  destruct (learn_from_instance_py_int _ _ _ _ _ _ _ _ H) as [n Hn].
  rewrite (learn_from_instance_steps _ _ _ _ _ _ _ Hn) in H.
  unfold learn_with_steps in H.
  destruct (initialize_weights self X y h) as [[self1 h1]|] eqn:Hi;
    simpl in H; [|discriminate].
  destruct (initialize_weights_faded_errors _ _ _ _ _ _ Hi) as [EM EP].
  destruct (observe (_stats self1) y weight) as [st|]; simpl in H; [|discriminate].
  destruct (gradient_steps _ X y _ rht _) as [[self3 h3]|] eqn:Hg; simpl in H;
    [|discriminate].
  injection H as <- _.
  assert (G : faded_error_not_negative (fMAE_M self3) /\
              faded_error_not_negative (fMAE_P self3)).
  { apply (gradient_steps_not_negative _ _ _ _ _ _ _ _ _) with (3 := Hg); simpl.
    - rewrite EM. exact HM.
    - rewrite EP. exact HP. }
  unfold update_observers. destruct (is_active _); exact G.
Qed.

(** X14. The faded errors are never negative: on a node whose two faded
    errors have no negative entry (as the constructor leaves them, at 0.0),
    every stream of instances that is learned leaves faded errors without a
    negative entry, whatever the values of the instances. *)
Theorem faded_errors_never_negative (stream : list instance) (self self' : node)
    (rht : HoeffdingTreeRegressor) (h h' : heap) :
  faded_error_not_negative (fMAE_M self) ->
  faded_error_not_negative (fMAE_P self) ->
  learn_all self stream rht h = Ok (self', h') ->
  faded_error_not_negative (fMAE_M self') /\
  faded_error_not_negative (fMAE_P self').
Proof.
  revert self h.
  induction stream as [|i rest IH]; intros self h HM HP H; simpl in H.
  - injection H as <- _. split; assumption.
  - destruct (learn_from_instance self _ _ _ rht h) as [[s1 h1]|] eqn:E;
      simpl in H; [|discriminate].
    destruct (learn_from_instance_not_negative _ _ _ _ _ _ _ _ HM HP E)
      as [HM1 HP1].
    exact (IH s1 h1 HM1 HP1 H).
Qed.

Lemma faded_errors_never_negative_witness :
  exists (self' : node) (h' : heap),
    learn_all (fresh_node ActiveAdaptiveMultiTarget) sample_instances unit_rht ∅
      = Ok (self', h')
    /\ faded_error_not_negative (fMAE_M self')
    /\ faded_error_not_negative (fMAE_P self').
Proof.
  assert (R : exists s, learn_all (fresh_node ActiveAdaptiveMultiTarget)
                sample_instances unit_rht ∅ = Ok s).
  { eexists. vm_compute. reflexivity. }
  destruct R as [[self' h'] R]. exists self', h'. split; [exact R|].
  apply (faded_errors_never_negative sample_instances
           (fresh_node ActiveAdaptiveMultiTarget) self' unit_rht ∅ h');
    [simpl; apply Qle_refl | simpl; apply Qle_refl | exact R].
Defined.

(** ** The size of a prediction *)





(** ** The decay of the learning rate *)

(** X16. With a positive [learning_ratio_perceptron], a non-negative
    [learning_ratio_decay] and [learning_ratio_const] false, the learning
    rate computed from the count of a node is a positive number that is at
    most [learning_ratio_perceptron], and a larger count never gives a
    larger rate. *)
Theorem learning_ratio_decays_with_count (rht : HoeffdingTreeRegressor)
    (r d c c' : Q) :
  learning_ratio_const rht = false ->
  learning_ratio_perceptron rht = Fin r ->
  learning_ratio_decay rht = Fin d ->
  0 < r -> 0 <= d -> 0 <= c -> c <= c' ->
  exists a a' : Q,
    learning_ratio_for rht (Fin c) = Fin a
    /\ learning_ratio_for rht (Fin c') = Fin a'
    /\ 0 < a' /\ a' <= a /\ a <= r.
Proof.
  intros Hc Hr Hd Hr0 Hd0 Hc0 Hcc.
  assert (R : forall k, 0 <= k ->
            learning_ratio_for rht (Fin k)
            = Fin (Qred (r / Qred (1 + Qred (k * d))))).
  { intros k Hk. unfold learning_ratio_for. rewrite Hc, Hr, Hd.
    unfold fmul, fadd, f1, fdiv.
    assert (Z : Qis_zero (Qred (1 + Qred (k * d))) = false).
    { apply Qis_zero_false. rewrite !Qred_correct. nra. }
    rewrite Z. reflexivity. }
  exists (Qred (r / Qred (1 + Qred (c * d)))),
         (Qred (r / Qred (1 + Qred (c' * d)))).
  split; [apply R, Hc0|]. split; [apply R; lra|].
  rewrite !Qred_correct.
  set (s := 1 + c * d). set (s' := 1 + c' * d).
  assert (Hs : 1 <= s) by (unfold s; nra).
  assert (Hss : s <= s') by (unfold s, s'; nra).
  assert (Hk : r / s * s == r) by (field; lra).
  assert (Hk' : r / s' * s' == r) by (field; lra).
  assert (Hp : 0 < r / s) by (apply Qlt_shift_div_l; lra).
  assert (Hp' : 0 < r / s') by (apply Qlt_shift_div_l; lra).
  split; [exact Hp'|]. split.
  - apply Qle_shift_div_r; [lra|]. nra.
  - apply Qle_shift_div_r; [lra|]. nra.
Qed.

Lemma learning_ratio_decays_with_count_witness :
  exists a a' : Q,
    learning_ratio_for unit_rht (Fin 1) = Fin a
    /\ learning_ratio_for unit_rht (Fin 1000) = Fin a'
    /\ 0 < a' /\ a' <= a /\ a <= 1 # 50.
Proof.
  apply (learning_ratio_decays_with_count unit_rht (1 # 50) (1 # 1000) 1 1000);
    try reflexivity; vm_compute; discriminate.
Defined.
